(* ====================================================================== *)
(* MuyGPyS: local-kriging Gaussian-process regression.                    *)
(*                                                                        *)
(* A shallow embedding of                                                 *)
(*   MuyGPyS/gp/muygps.py               (class MuyGPS)                    *)
(*   MuyGPyS/gp/multivariate_muygps.py  (class MultivariateMuyGPS)        *)
(*   MuyGPyS/_test/gp.py                (class BenchmarkGP)               *)
(*                                                                        *)
(* Arrays of floats are modelled as matrices over a field: the theorems   *)
(* are about the exact linear algebra the code asks numpy to perform, not *)
(* about rounding.  Shapes are carried by the types, as the docstrings    *)
(* give them; Python exceptions are an explicit error result.             *)
(* ====================================================================== *)

From Stdlib Require Import Reals Lra.
From HB Require Import structures.
From mathcomp Require Import boot order algebra.
From Stdlib Require Import String.

Set Implicit Arguments.
Unset Strict Implicit.
Unset Printing Implicit Defensive.

Import GRing.Theory Num.Theory Order.POrderTheory.
Local Open Scope ring_scope.

(* ---------------------------------------------------------------------- *)
(* Python exceptions and the result of a call                             *)
(* ---------------------------------------------------------------------- *)

Variant exn : Type :=
  | TypeError
  | NotImplementedError
  | LinAlgError
  | IndexError
  | ValueError
  | ZeroDivisionError.

Variant result (A : Type) : Type :=
  | Ok of A
  | Raise of exn.

Arguments Ok {A} _.
Arguments Raise {A} _.

Definition bind (A B : Type) (c : result A) (k : A -> result B) : result B :=
  match c with
  | Ok a => k a
  | Raise e => Raise e
  end.

Notation "x <- c ;; k" := (bind c (fun x => k))
  (at level 100, c at next level, right associativity).

(* A list comprehension / a loop that collects: the first exception stops
   the traversal and is the outcome of the whole expression. *)
Fixpoint mapM (A B : Type) (f : A -> result B) (s : seq A) : result (seq B) :=
  match s with
  | [::] => Ok [::]
  | a :: s' => y <- f a ;; ys <- mapM f s' ;; Ok (y :: ys)
  end.

(* ---------------------------------------------------------------------- *)
(* numpy primitives                                                       *)
(* ---------------------------------------------------------------------- *)

Section Numpy.

Variable F : fieldType.

(* np.eye(n) *)
Definition eye (n : nat) : 'M[F]_n := 1%:M.

(* np.linalg.solve(A, B) for one square system: the solution of A X = B,
   LinAlgError("Singular matrix") when A has no inverse. *)
Definition linalg_solve (k r : nat) (A : 'M[F]_k) (B : 'M[F]_(k, r))
  : result 'M[F]_(k, r) :=
  if A \in unitmx then Ok (invmx A *m B) else Raise LinAlgError.

(* np.linalg.solve on a stack of systems (leading batch axis): every system
   of the stack is solved, an exception of any of them fails the call. *)
Definition linalg_solve_stack (b k r : nat)
    (A : 'I_b -> 'M[F]_k) (B : 'I_b -> 'M[F]_(k, r))
  : result {ffun 'I_b -> 'M[F]_(k, r)} :=
  Xs <- mapM (fun i => linalg_solve (A i) (B i)) (enum 'I_b) ;;
  Ok [ffun i : 'I_b => nth 0 Xs i].

End Numpy.

(* ---------------------------------------------------------------------- *)
(* Strings as dictionary keys                                             *)
(* ---------------------------------------------------------------------- *)

HB.instance Definition _ := hasDecEq.Build string String.eqb_spec.

(* The variance modes regress supports: None and "diagonal". *)
Definition supported (variance_mode : option string) : bool :=
  match variance_mode with
  | None => true
  | Some mode => mode == "diagonal"%string
  end.

(* ---------------------------------------------------------------------- *)
(* The single-model engine: MuyGPyS/gp/muygps.py                          *)
(* ---------------------------------------------------------------------- *)

Section SingleModel.

Variable F : fieldType.

(* The hyperparameter objects come from MuyGPyS.gp.kernels, which is not
   part of the sources at hand.  What the engines use of them: a value
   (the object is called to read it) and bounds, which are either the
   sentinel "fixed" or a pair (lower, upper). *)
Variant bounds : Type :=
  | Fixed
  | Interval of F & F.

Record Hyperparameter : Type := mkHyperparameter {
  hp_val : F;
  hp_bounds : bounds
}.

(* Hyperparameter.get_bounds() != "fixed" *)
Definition not_fixed_bounds (h : Hyperparameter) : bool :=
  match hp_bounds h with
  | Fixed => false
  | Interval _ _ => true
  end.

(* Hyperparameter.fixed() *)
Definition fixed (h : Hyperparameter) : bool := ~~ not_fixed_bounds h.

(* Hyperparameter._set_val(v) *)
Definition _set_val (v : F) (h : Hyperparameter) : Hyperparameter :=
  mkHyperparameter v (hp_bounds h).

(* The kernel functor (Matern, RBF, ...) is an external collaborator: a
   mapping from a distance to a covariance value, applied entrywise to a
   distance tensor of any shape, together with its dictionary of named
   hyperparameters (insertion ordered, keys distinct). *)
Record Kernel : Type := mkKernel {
  kernel_fn : F -> F;
  kernel_metric : string;
  hyperparameters : seq (string * Hyperparameter)
}.

(* kernel(dists) on a matrix and on a stack of matrices *)
Definition kernel_call (m n : nat) (kn : Kernel) (D : 'M[F]_(m, n))
  : 'M[F]_(m, n) := map_mx (kernel_fn kn) D.

Definition kernel_call_stack (b m n : nat) (kn : Kernel)
    (D : 'I_b -> 'M[F]_(m, n)) : 'I_b -> 'M[F]_(m, n) :=
  fun i => kernel_call kn (D i).

(* The attributes MuyGPS.__init__ sets. *)
Record MuyGPS : Type := mkMuyGPS {
  kern : string;
  metric : string;
  kernel : Kernel;
  eps : Hyperparameter;
  sigma_sq : seq Hyperparameter
}.

(* MuyGPS._compute_solve(self, K, Kcross, batch_targets):
     responses = Kcross.reshape(batch_size, 1, nn_count) @ np.linalg.solve(
         K + self.eps() * np.eye(nn_count), batch_targets)
     return responses.reshape(batch_size, response_count) *)
Definition _compute_solve (b k r : nat) (self : MuyGPS)
    (K : 'I_b -> 'M[F]_k) (Kcross : 'M[F]_(b, k))
    (batch_targets : 'I_b -> 'M[F]_(k, r)) : result 'M[F]_(b, r) :=
  X <- linalg_solve_stack
         (fun i => K i + hp_val (eps self) *: eye F k) batch_targets ;;
  Ok (\matrix_(i, j) (row i Kcross *m X i) 0 j).

(* MuyGPS._compute_diagonal_variance(self, K, Kcross):
     return np.array([
         1.0 - Kcross[i, :] @ np.linalg.solve(
             K[i, :, :] + self.eps() * np.eye(nn_count), Kcross[i, :])
         for i in range(batch_size)]) *)
Definition _compute_diagonal_variance (b k : nat) (self : MuyGPS)
    (K : 'I_b -> 'M[F]_k) (Kcross : 'M[F]_(b, k)) : result 'cV[F]_b :=
  vs <- mapM (fun i : 'I_b =>
                x <- linalg_solve (K i + hp_val (eps self) *: eye F k)
                                  (row i Kcross)^T ;;
                Ok (1 - (row i Kcross *m x) 0 0))
             (enum 'I_b) ;;
  Ok (\col_(i < b) nth 0 vs i).

(* What regress returns: the responses alone, or the pair with the
   variances. *)
Variant regress_out (R V : Type) : Type :=
  | Responses of R
  | ResponsesVariance of R & V.

Arguments Responses {R V} _.
Arguments ResponsesVariance {R V} _ _.

(* MuyGPS.regress(self, K, Kcross, batch_targets, variance_mode=None) *)
Definition regress (b k r : nat) (self : MuyGPS)
    (K : 'I_b -> 'M[F]_k) (Kcross : 'M[F]_(b, k))
    (batch_targets : 'I_b -> 'M[F]_(k, r)) (variance_mode : option string)
  : result (regress_out 'M[F]_(b, r) 'cV[F]_b) :=
  responses <- _compute_solve self K Kcross batch_targets ;;
  match variance_mode with
  | None => Ok (Responses responses)
  | Some mode =>
      if mode == "diagonal"%string then
        diagonal_variance <- _compute_diagonal_variance self K Kcross ;;
        Ok (ResponsesVariance responses diagonal_variance)
      else Raise NotImplementedError
  end.

(* Python's built-in sum(iterable): left to right, starting from 0. *)
Definition pysum (s : seq F) : F := foldl +%R 0 s.

(* MuyGPS._get_sigma_sq(self, K, target_col, nn_indices): the generator
     for j in range(batch_size):
         Y_0 = target_col[nn_indices[j, :]]
         yield Y_0 @ np.linalg.solve(
             K[j, :, :] + self.eps() * np.eye(nn_count), Y_0)
   as the sequence of the values it yields (an exception of a solve ends
   the iteration and reaches the consumer). *)
Definition _get_sigma_sq (b k n : nat) (self : MuyGPS)
    (K : 'I_b -> 'M[F]_k) (target_col : 'cV[F]_n)
    (nn_indices : 'I_b -> 'I_k -> 'I_n) : result (seq F) :=
  mapM (fun j : 'I_b =>
          let Y_0 : 'cV[F]_k := \col_l target_col (nn_indices j l) 0 in
          x <- linalg_solve (K j + hp_val (eps self) *: eye F k) Y_0 ;;
          Ok ((Y_0^T *m x) 0 0))
       (enum 'I_b).

(* x / (nn_count * batch_size): the sum of an empty generator is the int 0,
   and 0 / 0 on ints raises ZeroDivisionError. *)
Definition sigma_sq_mean (b k : nat) (s : seq F) : result F :=
  if (b == 0)%N then Raise ZeroDivisionError
  else Ok (pysum s / (k * b)%:R).

(* self.sigma_sq[i]._set_val(v) on the list self.sigma_sq *)
Definition set_sigma_sq (i : nat) (v : F) (self : MuyGPS) : MuyGPS :=
  mkMuyGPS (kern self) (metric self) (kernel self) (eps self)
    (set_nth (mkHyperparameter 0 Fixed) (sigma_sq self) i
       (_set_val v (nth (mkHyperparameter 0 Fixed) (sigma_sq self) i))).

(* The loop of MuyGPS.sigma_sq_optim over the response dimensions.  The
   engine is mutated in place, so a dimension that raises leaves the
   earlier updates behind: the outcome is the engine together with the
   value or exception of the call. *)
Fixpoint sigma_sq_optim_loop (b k n r : nat) (self : MuyGPS)
    (K : 'I_b -> 'M[F]_k) (nn_indices : 'I_b -> 'I_k -> 'I_n)
    (targets : 'M[F]_(n, r)) (dims : seq 'I_r) : MuyGPS * result unit :=
  match dims with
  | [::] => (self, Ok tt)
  | i :: dims' =>
      if (i < size (sigma_sq self))%N then
        match (s <- _get_sigma_sq self K (col i targets) nn_indices ;;
               sigma_sq_mean b k s) with
        | Ok v =>
            sigma_sq_optim_loop (set_sigma_sq i v self) K nn_indices targets
              dims'
        | Raise e => (self, Raise e)
        end
      else (self, Raise IndexError)
  end.

(* MuyGPS.sigma_sq_optim(self, K, nn_indices, targets): the body has no
   return statement, the call evaluates to None (tt). *)
Definition sigma_sq_optim (b k n r : nat) (self : MuyGPS)
    (K : 'I_b -> 'M[F]_k) (nn_indices : 'I_b -> 'I_k -> 'I_n)
    (targets : 'M[F]_(n, r)) : MuyGPS * result unit :=
  sigma_sq_optim_loop self K nn_indices targets (enum 'I_r).

(* The closed-form scale estimate of response dimension i in the words of
   the specification: for each neighbourhood j, y_j^T @ solve(K_j +
   noise * I, y_j), summed over the neighbourhoods and divided by
   k * batch_count. *)
Definition sigma_sq_estimate (b k n r : nat) (self : MuyGPS)
    (K : 'I_b -> 'M[F]_k) (nn_indices : 'I_b -> 'I_k -> 'I_n)
    (targets : 'M[F]_(n, r)) (i : 'I_r) : F :=
  (\sum_(j < b)
      let y : 'cV[F]_k := \col_l targets (nn_indices j l) i in
      (y^T *m (invmx (K j + hp_val (eps self) *: eye F k) *m y)) 0 0)
  / (k * b)%:R.

(* d[key] = v on an insertion-ordered dictionary *)
Definition dict_set (V : Type) (d : seq (string * V)) (key : string) (v : V)
  : seq (string * V) :=
  if has (fun e => e.1 == key) d
  then [seq if e.1 == key then (key, v) else e | e <- d]
  else rcons d (key, v).

(* MuyGPS.get_optim_params(self) *)
Definition get_optim_params (self : MuyGPS) : seq (string * Hyperparameter) :=
  let optim_params :=
    [seq p <- hyperparameters (kernel self) | not_fixed_bounds p.2] in
  if not_fixed_bounds (eps self)
  then dict_set optim_params "eps"%string (eps self)
  else optim_params.

(* ---------------------------------------------------------------------- *)
(* The benchmark engine: MuyGPyS/_test/gp.py                              *)
(* ---------------------------------------------------------------------- *)

Record BenchmarkGP : Type := mkBenchmarkGP {
  bgp_kernel : Kernel;
  bgp_eps : Hyperparameter
}.

(* BenchmarkGP.get_optim_params(self) *)
Definition bgp_get_optim_params (self : BenchmarkGP)
  : seq (string * Hyperparameter) :=
  let optim_params :=
    [seq p <- hyperparameters (bgp_kernel self) | ~~ fixed p.2] in
  if ~~ fixed (bgp_eps self)
  then dict_set optim_params "eps"%string (bgp_eps self)
  else optim_params.

(* ---------------------------------------------------------------------- *)
(* Mutation of hyperparameters                                            *)
(* ---------------------------------------------------------------------- *)

(* Modelled from the spec: the setters of the hyperparameter objects
   (Hyperparameter._set and the kernel's own, absent from the sources):
   a mutation gives one hyperparameter a new value and new bounds, or the
   sentinel "fixed"; a kernel hyperparameter also changes the covariance
   function the kernel evaluates.  MuyGPS.sigma_sq_optim and
   BenchmarkGP._set_sigma_sq mutate a scale parameter by _set_val. *)
Variant mutation : Type :=
  | SetKernelParam of string & Hyperparameter & (F -> F)
  | SetEps of Hyperparameter
  | SetSigmaSq of nat & F.

(* The hyperparameters get_optim_params ranges over. *)
Variant target : Type :=
  | KernelParam of string
  | Eps.

Definition touches (m : mutation) (t : target) : bool :=
  match m, t with
  | SetKernelParam p _ _, KernelParam q => p == q
  | SetEps _, Eps => true
  | _, _ => false
  end.

Definition mutate_kernel (m : mutation) (kn : Kernel) : Kernel :=
  match m with
  | SetKernelParam p h fn =>
      mkKernel fn (kernel_metric kn)
        [seq if e.1 == p then (e.1, h) else e | e <- hyperparameters kn]
  | _ => kn
  end.

Definition mutate_eps (m : mutation) (e : Hyperparameter) : Hyperparameter :=
  match m with
  | SetEps h => h
  | _ => e
  end.

Definition mutate (m : mutation) (self : MuyGPS) : MuyGPS :=
  let self' :=
    mkMuyGPS (kern self) (metric self) (mutate_kernel m (kernel self))
      (mutate_eps m (eps self)) (sigma_sq self) in
  match m with
  | SetSigmaSq i v => set_sigma_sq i v self'
  | _ => self'
  end.

(* BenchmarkGP.set_eps and the setters of its kernel; the scale parameter
   of a BenchmarkGP is not among the attributes kept here. *)
Definition bgp_mutate (m : mutation) (self : BenchmarkGP) : BenchmarkGP :=
  mkBenchmarkGP (mutate_kernel m (bgp_kernel self))
    (mutate_eps m (bgp_eps self)).

(* key in d, for a dictionary d *)
Definition dict_keys (V : Type) (d : seq (string * V)) : seq string :=
  [seq e.1 | e <- d].

(* The name under which get_optim_params would list a hyperparameter. *)
Definition name_of (t : target) : string :=
  match t with
  | KernelParam p => p
  | Eps => "eps"%string
  end.

(* The hyperparameter is present and marked fixed. *)
Definition marked_fixed (t : target) (kn : Kernel) (e : Hyperparameter)
  : bool :=
  match t with
  | KernelParam p =>
      (p \in dict_keys (hyperparameters kn))
      && all (fun x => (x.1 == p) ==> fixed x.2) (hyperparameters kn)
  | Eps => fixed e
  end.

(* Another, free hyperparameter bears the same name: the noise parameter
   for a kernel hyperparameter called "eps", and conversely. *)
Definition homonym (t : target) (kn : Kernel) (e : Hyperparameter) : bool :=
  match t with
  | KernelParam p => (p == "eps"%string) && not_fixed_bounds e
  | Eps =>
      has (fun x => (x.1 == "eps"%string) && not_fixed_bounds x.2)
        (hyperparameters kn)
  end.

End SingleModel.

Arguments Responses {R V} _.
Arguments ResponsesVariance {R V} _ _.
Arguments Fixed {F}.

(* ---------------------------------------------------------------------- *)
(* The multivariate engine: MuyGPyS/gp/multivariate_muygps.py             *)
(* ---------------------------------------------------------------------- *)

Section Multivariate.

Variable F : fieldType.

(* Modelled from the spec: the shared scale parameter SigmaSq (class of
   MuyGPyS.gp.kernels, absent from the sources): one value per response
   dimension, read by calling the object, and a flag telling whether the
   closed-form estimator has trained it. *)
Record SigmaSq : Type := mkSigmaSq {
  ss_val : seq F;
  trained : bool
}.

(* The attributes MultivariateMuyGPS.__init__ sets.  The constructor reads
   self.models[0], so an instance has at least one model. *)
Record MultivariateMuyGPS : Type := mkMultivariateMuyGPS {
  mm_kern : string;
  models : seq (MuyGPS F);
  mm_metric : string;
  mm_sigma_sq : SigmaSq
}.

Section Batch.

Variables b k : nat.

(* The values _regress passes to the methods of a model. *)
Variant pyarg : Type :=
  | ArgTensor of ('I_b -> 'M[F]_k)        (* shape (batch, nn, nn) *)
  | ArgMatrix of 'M[F]_(b, k)             (* shape (batch, nn) *)
  | ArgTargets of ('I_b -> 'cV[F]_k)      (* shape (batch, nn, 1) *)
  | ArgScalar of F.

(* Calling a method: Python binds the positional arguments to the
   parameters that follow self, and raises TypeError before the body runs
   when their numbers differ (these methods have neither defaults nor
   *args).  MuyGPS._compute_solve has the parameters K, Kcross and
   batch_targets; MuyGPS._compute_diagonal_variance has K and Kcross.
   No caller passes arguments of another kind than the body expects; such
   a call is reported as TypeError too. *)
Definition call__compute_solve (model : MuyGPS F) (args : seq pyarg)
  : result 'cV[F]_b :=
  match args with
  | [:: ArgTensor K; ArgMatrix Kcross; ArgTargets batch_targets] =>
      _compute_solve model K Kcross batch_targets
  | _ => Raise TypeError
  end.

Definition call__compute_diagonal_variance (model : MuyGPS F)
    (args : seq pyarg) : result 'cV[F]_b :=
  match args with
  | [:: ArgTensor K; ArgMatrix Kcross] =>
      _compute_diagonal_variance model K Kcross
  | _ => Raise TypeError
  end.

Variable r : nat.

(* batch_nn_targets[:, :, i].reshape(batch_count, nn_count, 1) *)
Definition slice_response (batch_nn_targets : 'I_b -> 'M[F]_(k, r))
    (i : nat) : result ('I_r * ('I_b -> 'cV[F]_k)) :=
  match insub i : option 'I_r with
  | Some j => Ok (j, fun a => col j (batch_nn_targets a))
  | None => Raise IndexError
  end.

(* Modelled from the spec: mm.assign(x, y, slice(None), i) of the absent
   MuyGPyS._src.math backend, the in-place assignment x[:, i] = y into the
   pre-allocated output array, which it returns. *)
Definition assign_column (x : 'M[F]_(b, r)) (y : 'cV[F]_b) (i : 'I_r)
  : 'M[F]_(b, r) :=
  \matrix_(a, c) if c == i then y a 0 else x a c.

(* sigma_sq()[i] *)
Definition sigma_sq_item (sigma_sq : SigmaSq) (i : nat) : result F :=
  if (i < size (ss_val sigma_sq))%N then Ok (nth 0 (ss_val sigma_sq) i)
  else Raise IndexError.

(* The loop `for i, model in enumerate(models)` of _regress.
   diagonal_variance is bound exactly when variance_mode == "diagonal". *)
Fixpoint _regress_loop (pairwise_dists : 'I_b -> 'M[F]_k)
    (crosswise_dists : 'M[F]_(b, k))
    (batch_nn_targets : 'I_b -> 'M[F]_(k, r)) (sigma_sq : SigmaSq)
    (apply_sigma_sq : bool) (i : nat) (ms : seq (MuyGPS F))
    (responses : 'M[F]_(b, r)) (diagonal_variance : option 'M[F]_(b, r))
  : result ('M[F]_(b, r) * option 'M[F]_(b, r)) :=
  match ms with
  | [::] => Ok (responses, diagonal_variance)
  | model :: ms' =>
      let K := kernel_call_stack (kernel model) pairwise_dists in
      let Kcross := kernel_call (kernel model) crosswise_dists in
      sl <- slice_response batch_nn_targets i ;;
      solved <- call__compute_solve model
                  [:: ArgTensor K; ArgMatrix Kcross; ArgTargets sl.2;
                      ArgScalar (hp_val (eps model))] ;;
      let responses' := assign_column responses solved sl.1 in
      diagonal_variance' <-
        match diagonal_variance with
        | None => Ok None
        | Some dv =>
            ss <- (if apply_sigma_sq then sigma_sq_item sigma_sq i
                   else Ok 1) ;;
            var <- call__compute_diagonal_variance model
                     [:: ArgTensor K; ArgMatrix Kcross;
                         ArgScalar (hp_val (eps model))] ;;
            Ok (Some (assign_column dv (ss *: var) sl.1))
        end ;;
      _regress_loop pairwise_dists crosswise_dists batch_nn_targets
        sigma_sq apply_sigma_sq i.+1 ms' responses' diagonal_variance'
  end.

(* MultivariateMuyGPS._regress (static) *)
Definition _regress (ms : seq (MuyGPS F))
    (pairwise_dists : 'I_b -> 'M[F]_k) (crosswise_dists : 'M[F]_(b, k))
    (batch_nn_targets : 'I_b -> 'M[F]_(k, r)) (sigma_sq : SigmaSq)
    (variance_mode : option string) (apply_sigma_sq : bool)
  : result (regress_out 'M[F]_(b, r) 'M[F]_(b, r)) :=
  let responses : 'M[F]_(b, r) := 0 in
  diagonal_variance <-
    match variance_mode with
    | None => Ok None
    | Some mode =>
        if mode == "diagonal"%string then Ok (Some (0 : 'M[F]_(b, r)))
        else Raise NotImplementedError
    end ;;
  out <- _regress_loop pairwise_dists crosswise_dists batch_nn_targets
           sigma_sq apply_sigma_sq 0 ms responses diagonal_variance ;;
  match out.2 with
  | Some dv => Ok (ResponsesVariance out.1 dv)
  | None => Ok (Responses out.1)
  end.

(* MultivariateMuyGPS.regress *)
Definition mm_regress (self : MultivariateMuyGPS)
    (pairwise_dists : 'I_b -> 'M[F]_k) (crosswise_dists : 'M[F]_(b, k))
    (batch_nn_targets : 'I_b -> 'M[F]_(k, r))
    (variance_mode : option string) (apply_sigma_sq : bool)
  : result (regress_out 'M[F]_(b, r) 'M[F]_(b, r)) :=
  _regress (models self) pairwise_dists crosswise_dists batch_nn_targets
    (mm_sigma_sq self) variance_mode
    (apply_sigma_sq && trained (mm_sigma_sq self)).

End Batch.

(* ---- regress_from_indices -------------------------------------------- *)

Section FromIndices.

(* batch, neighbours, responses, test count, train count, features *)
Variables b k r tc n f : nat.

(* External collaborators: MuyGPyS._src.mpi_utils._is_mpi_mode() and the
   two tensor builders of MuyGPyS._src.gp.distance.  A builder returns
   (crosswise_dists, pairwise_dists, batch_nn_targets). *)
Definition tensor_builder : Type :=
  string -> ('I_b -> 'I_tc) -> ('I_b -> 'I_k -> 'I_n) ->
  'M[F]_(tc, f) -> 'M[F]_(n, f) -> 'M[F]_(n, r) ->
  'M[F]_(b, k) * ('I_b -> 'M[F]_k) * ('I_b -> 'M[F]_(k, r)).

Variable _is_mpi_mode : bool.
Variables _make_regress_tensors _make_regress_tensors_n : tensor_builder.

(* What regress_from_indices returns: what regress returned, or that with
   the distances appended. *)
Variant from_indices_out : Type :=
  | Plain of regress_out 'M[F]_(b, r) 'M[F]_(b, r)
  | WithDists of regress_out 'M[F]_(b, r) 'M[F]_(b, r)
                 & 'M[F]_(b, k) & ('I_b -> 'M[F]_k)
  | WithVarDists of 'M[F]_(b, r) & 'M[F]_(b, r)
                    & 'M[F]_(b, k) & ('I_b -> 'M[F]_k).

(* tensor_fn = (_make_regress_tensors_n
               if _is_mpi_mode() is True and indices_by_rank is True
               else _make_regress_tensors) *)
Definition tensor_fn (indices_by_rank : bool) : tensor_builder :=
  if _is_mpi_mode && indices_by_rank then _make_regress_tensors_n
  else _make_regress_tensors.

(* MultivariateMuyGPS.regress_from_indices.  Under a variance mode the
   result of regress is unpacked as a pair; regress returns the responses
   alone only when variance_mode is None, so the unpacking of anything
   else is a dead branch, given here as the ValueError of a failed
   unpacking. *)
Definition regress_from_indices (self : MultivariateMuyGPS)
    (indices : 'I_b -> 'I_tc) (nn_indices : 'I_b -> 'I_k -> 'I_n)
    (test : 'M[F]_(tc, f)) (train : 'M[F]_(n, f)) (targets : 'M[F]_(n, r))
    (variance_mode : option string) (apply_sigma_sq : bool)
    (return_distances : bool) (indices_by_rank : bool)
  : result from_indices_out :=
  let: (crosswise_dists, pairwise_dists, batch_nn_targets) :=
    tensor_fn indices_by_rank (mm_metric self) indices nn_indices test train
      targets in
  responses <- mm_regress self pairwise_dists crosswise_dists
                 batch_nn_targets variance_mode apply_sigma_sq ;;
  if ~~ return_distances then Ok (Plain responses)
  else
    match variance_mode with
    | None => Ok (WithDists responses crosswise_dists pairwise_dists)
    | Some _ =>
        match responses with
        | ResponsesVariance responses' variances =>
            Ok (WithVarDists responses' variances crosswise_dists
                  pairwise_dists)
        | Responses _ => Raise ValueError
        end
    end.

(* The responses (and variances) inside a result of regress_from_indices *)
Definition results_of (o : from_indices_out)
  : regress_out 'M[F]_(b, r) 'M[F]_(b, r) :=
  match o with
  | Plain res => res
  | WithDists res _ _ => res
  | WithVarDists responses variances _ _ =>
      ResponsesVariance responses variances
  end.

(* ---- fast regression -------------------------------------------------- *)

(* External collaborator: MuyGPyS.gp.distance.crosswise_distances *)
Variable crosswise_distances :
  'M[F]_(tc, f) -> 'M[F]_(n, f) -> ('I_b -> 'I_tc) ->
  ('I_b -> 'I_k -> 'I_n) -> 'M[F]_(b, k).

(* Modelled from the spec: mm.assign(x, y, slice(None), slice(None), i) of
   the absent MuyGPyS._src.math backend, the in-place assignment
   x[:, :, i] = y into the pre-allocated array; an index past the last
   axis raises IndexError. *)
Definition assign_slab (x : 'I_b -> 'M[F]_(k, r)) (y : 'M[F]_(b, k))
    (i : nat) : result ('I_b -> 'M[F]_(k, r)) :=
  match insub i : option 'I_r with
  | Some j => Ok (fun a => \matrix_(l, c) if c == j then y a l else x a l c)
  | None => Raise IndexError
  end.

(* Modelled from the spec: _mmuygps_fast_regress_solve of the absent
   MuyGPyS._src.gp.muygps, the batched dot product per response dimension
   responses[i, d] = sum_j Kcross[i, j, d] * coeffs[i, j, d]. *)
Definition _mmuygps_fast_regress_solve (Kcross : 'I_b -> 'M[F]_(k, r))
    (coeffs_tensor : 'I_b -> 'M[F]_(k, r)) : 'M[F]_(b, r) :=
  \matrix_(i, d) \sum_j Kcross i j d * coeffs_tensor i j d.

(* The loop `for i, model in enumerate(models)` of _fast_regress *)
Fixpoint _fast_regress_loop (crosswise_dists : 'M[F]_(b, k)) (i : nat)
    (ms : seq (MuyGPS F)) (Kcross : 'I_b -> 'M[F]_(k, r))
  : result ('I_b -> 'M[F]_(k, r)) :=
  match ms with
  | [::] => Ok Kcross
  | model :: ms' =>
      Kcross' <- assign_slab Kcross
                   (kernel_call (kernel model) crosswise_dists) i ;;
      _fast_regress_loop crosswise_dists i.+1 ms' Kcross'
  end.

(* MultivariateMuyGPS._fast_regress (static) *)
Definition _fast_regress (ms : seq (MuyGPS F))
    (crosswise_dists : 'M[F]_(b, k))
    (coeffs_tensor : 'I_b -> 'M[F]_(k, r)) : result 'M[F]_(b, r) :=
  Kcross <- _fast_regress_loop crosswise_dists 0 ms (fun _ => 0) ;;
  Ok (_mmuygps_fast_regress_solve Kcross coeffs_tensor).

(* MultivariateMuyGPS.fast_regress *)
Definition fast_regress (self : MultivariateMuyGPS)
    (crosswise_dists : 'M[F]_(b, k))
    (coeffs_tensor : 'I_b -> 'M[F]_(k, r)) : result 'M[F]_(b, r) :=
  _fast_regress (models self) crosswise_dists coeffs_tensor.

(* MultivariateMuyGPS.fast_regress_from_indices; coeffs_tensor is indexed
   by training point, coeffs_tensor[closest_index, :, :] gathers the block
   of the closest training point of every batch element. *)
Definition fast_regress_from_indices (self : MultivariateMuyGPS)
    (indices : 'I_b -> 'I_tc) (nn_indices : 'I_b -> 'I_k -> 'I_n)
    (test_features : 'M[F]_(tc, f)) (train_features : 'M[F]_(n, f))
    (closest_index : 'I_b -> 'I_n)
    (coeffs_tensor : 'I_n -> 'M[F]_(k, r)) : result 'M[F]_(b, r) :=
  let crosswise_dists :=
    crosswise_distances test_features train_features indices nn_indices in
  fast_regress self crosswise_dists
    (fun i => coeffs_tensor (closest_index i)).

End FromIndices.

End Multivariate.

(* ---------------------------------------------------------------------- *)
(* Further functions of the same files                                    *)
(* ---------------------------------------------------------------------- *)

Section MoreSingleModel.

Variable F : fieldType.

(* MuyGPS._get_sigma_sq_series(self, K, nn_indices, target_col):
     sigmas = np.zeros((batch_size,))
     for i, el in enumerate(self._get_sigma_sq(K, target_col, nn_indices)):
         sigmas[i] = el
     return sigmas / nn_count *)
Definition _get_sigma_sq_series (b k n : nat) (self : MuyGPS F)
    (K : 'I_b -> 'M[F]_k) (nn_indices : 'I_b -> 'I_k -> 'I_n)
    (target_col : 'cV[F]_n) : result 'cV[F]_b :=
  els <- _get_sigma_sq self K target_col nn_indices ;;
  let sigmas : 'cV[F]_b := \col_i nth 0 els i in
  Ok (k%:R^-1 *: sigmas).

(* get_analytic_sigma_sq(K, y) of MuyGPyS/_test/gp.py:
     assert y.shape[0] == K.shape[0]
     return (1 / y.shape[0]) * y.T @ np.linalg.solve(K, y)
   The shapes agree by typing; 1 / y.shape[0] is a division of Python
   ints, evaluated first. *)
Definition get_analytic_sigma_sq (n r : nat) (K : 'M[F]_n)
    (y : 'M[F]_(n, r)) : result 'M[F]_r :=
  if (n == 0)%N then Raise ZeroDivisionError
  else x <- linalg_solve K y ;; Ok ((n%:R^-1 *: y^T) *m x).

(* The loop of BenchmarkGP.fixed over the kernel hyperparameters: the
   first one that is not fixed makes the method return False. *)
Fixpoint bgp_fixed_loop (hs : seq (string * Hyperparameter F))
    (after : bool) : bool :=
  match hs with
  | [::] => after
  | p :: hs' => if ~~ fixed p.2 then false else bgp_fixed_loop hs' after
  end.

(* BenchmarkGP.fixed(self) *)
Definition bgp_fixed (self : BenchmarkGP F) : bool :=
  bgp_fixed_loop (hyperparameters (bgp_kernel self))
    (if ~~ fixed (bgp_eps self) then false else true).

(* benchmark_select_skl_metric(metric) *)
Definition benchmark_select_skl_metric (metric : string) : result string :=
  if metric == "l2"%string then Ok "l2"%string
  else if metric == "F2"%string then Ok "sqeuclidean"%string
  else Raise ValueError.

Section Benchmark.

(* External collaborator: sklearn.metrics.pairwise_distances(X, Y, metric),
   the matrix of the distances between the rows of X and the rows of Y;
   with X alone, between the rows of X. *)
Variable skl_pairwise_distances :
  forall m n f : nat, 'M[F]_(m, f) -> 'M[F]_(n, f) -> string -> 'M[F]_(m, n).

(* benchmark_pairwise_distances(data, metric) *)
Definition benchmark_pairwise_distances (m f : nat) (data : 'M[F]_(m, f))
    (metric : string) : result 'M[F]_m :=
  skl_metric <- benchmark_select_skl_metric metric ;;
  Ok (skl_pairwise_distances data data skl_metric).

(* benchmark_crosswise_distances(test, train, metric) *)
Definition benchmark_crosswise_distances (m n f : nat)
    (test : 'M[F]_(m, f)) (train : 'M[F]_(n, f)) (metric : string)
  : result 'M[F]_(m, n) :=
  skl_metric <- benchmark_select_skl_metric metric ;;
  Ok (skl_pairwise_distances test train skl_metric).

(* BenchmarkGP.regress(self, test, train, targets); self.metric is the
   metric of the kernel. *)
Definition bgp_regress (tc n f r : nat) (self : BenchmarkGP F)
    (test : 'M[F]_(tc, f)) (train : 'M[F]_(n, f)) (targets : 'M[F]_(n, r))
  : result ('M[F]_(tc, r) * 'M[F]_tc) :=
  let metric := kernel_metric (bgp_kernel self) in
  crosswise_dists <- benchmark_crosswise_distances test train metric ;;
  pairwise_dists <- benchmark_pairwise_distances train metric ;;
  let Kcross := kernel_call (bgp_kernel self) crosswise_dists in
  let K := kernel_call (bgp_kernel self) pairwise_dists in
  x <- linalg_solve K targets ;;
  let responses := Kcross *m x in
  test_pairwise_dists <- benchmark_pairwise_distances test metric ;;
  let Kstar := kernel_call (bgp_kernel self) test_pairwise_dists in
  z <- linalg_solve K Kcross^T ;;
  let variance := Kstar - Kcross *m z in
  Ok (responses, variance).

End Benchmark.


End MoreSingleModel.

(* Symmetric positive semi-definite matrices: what a kernel matrix with
   its nugget is, for a valid covariance kernel. *)
Definition symmetric_psd (R : numFieldType) (n : nat) (A : 'M[R]_n) : Prop :=
  A^T = A /\ forall v : 'cV[R]_n, 0 <= (v^T *m A *m v) 0 0.

(* ---------------------------------------------------------------------- *)
(* The end-to-end scenario of the specification, over the rationals:      *)
(* k = 3 neighbours, one batch element, an identity kernel matrix, a      *)
(* nugget of 1e-5, Kcross = [0.5, 0.3, 0.1], targets = [[2], [4], [6]].  *)
(* ---------------------------------------------------------------------- *)

Definition nugget : rat := (10%:R ^+ 5)^-1.

(* An engine with noise value e *)
Definition engine_with_noise (e : rat) : MuyGPS rat :=
  mkMuyGPS "matern" "l2" (mkKernel id "l2" [::])
    (mkHyperparameter e Fixed) [:: mkHyperparameter 1 Fixed].

Definition scenario_engine : MuyGPS rat := engine_with_noise nugget.

Definition scenario_K : 'I_1 -> 'M[rat]_3 := fun _ => 1%:M.

Definition scenario_Kcross : 'M[rat]_(1, 3) :=
  \row_j nth 0 [:: 1 / 2%:R; 3%:R / 10%:R; 1 / 10%:R] j.

Definition scenario_targets : 'I_1 -> 'M[rat]_(3, 1) :=
  fun _ => \col_j nth 0 [:: 2%:R; 4%:R; 6%:R] j.

(* Two response dimensions over the same neighbourhood: the neighbours are
   at distance 1 from one another, the engine has one model per dimension
   and a trained scale vector. *)
Definition scenario_pairwise : 'I_1 -> 'M[rat]_3 :=
  fun _ => const_mx 1 - 1%:M.

Definition scenario_nn_targets : 'I_1 -> 'M[rat]_(3, 2) :=
  fun _ => \matrix_(j, d)
    nth 0 (nth [::] [:: [:: 2%:R; 4%:R; 6%:R]; [:: 1; 3%:R; 5%:R]] d) j.

Definition scenario_mm : MultivariateMuyGPS rat :=
  mkMultivariateMuyGPS "matern"
    [:: scenario_engine; engine_with_noise (nugget + nugget)] "l2"
    (mkSigmaSq [:: 2%:R; 3%:R] true).

(* Two coincident neighbours and no noise: a singular system. *)
Definition duplicate_K : 'I_1 -> 'M[rat]_2 := fun _ => const_mx 1.

Definition duplicate_Kcross : 'M[rat]_(1, 2) := const_mx (1 / 2%:R).

Definition duplicate_targets : 'I_1 -> 'M[rat]_(2, 1) :=
  fun _ => \col_j nth 0 [:: 2%:R; 4%:R] j.

(* The neighbourhood of the scenario, as a training set of three points. *)
Definition scenario_nn_indices : 'I_1 -> 'I_3 -> 'I_3 := fun _ l => l.

Definition scenario_train_targets : 'M[rat]_(3, 1) :=
  \col_j nth 0 [:: 2%:R; 4%:R; 6%:R] j.

(* A benchmark engine over one training point and one test point, with
   squared Euclidean distances standing for sklearn's pairwise_distances
   under the metric F2. *)
Definition squared_distances (m n f : nat) (X : 'M[rat]_(m, f))
    (Y : 'M[rat]_(n, f)) (skl_metric : string) : 'M[rat]_(m, n) :=
  \matrix_(i, j) \sum_l (X i l - Y j l) ^+ 2.

Definition scenario_bgp : BenchmarkGP rat :=
  mkBenchmarkGP (mkKernel (fun d => 1 - d) "F2" [::])
    (mkHyperparameter 0 Fixed).

Definition scenario_bgp_engine : MuyGPS rat :=
  mkMuyGPS "matern" "F2" (bgp_kernel scenario_bgp)
    (mkHyperparameter 0 Fixed) [:: mkHyperparameter 1 Fixed].

Definition scenario_train : 'M[rat]_(1, 1) := 0.

Definition scenario_test : 'M[rat]_(1, 1) := (1 / 2%:R)%:M.

Definition scenario_bgp_targets : 'M[rat]_(1, 1) := 2%:R%:M.

(* ====================================================================== *)
(* Properties                                                             *)
(* ====================================================================== *)

Section MapMLemmas.

Variables (A B : Type).

(* A traversal whose body either succeeds with g or raises the one
   exception e: it succeeds exactly when every element passes. *)
Lemma mapM_if (f : A -> result B) (p : pred A) (g : A -> B) (e : exn)
    (s : seq A) :
  (forall a, f a = if p a then Ok (g a) else Raise e) ->
  mapM f s = if all p s then Ok [seq g a | a <- s] else Raise e.
Proof.
move=> fE; elim: s => [|a s IHs] //=.
by rewrite fE; case: (p a) => //=; rewrite IHs; case: (all p s).
Qed.

End MapMLemmas.

Section NumpyLemmas.

Variable F : fieldType.

Lemma all_enum_ord (b : nat) (p : pred 'I_b) :
  all p (enum 'I_b) = [forall i, p i].
Proof.
apply/allP/forallP => [H i|H i _]; last exact: H.
by apply: H; rewrite mem_enum.
Qed.

Lemma nth_map_enum_ord (T : Type) (x0 : T) (b : nat) (g : 'I_b -> T)
    (i : 'I_b) :
  nth x0 [seq g a | a <- enum 'I_b] i = g i.
Proof.
by rewrite (nth_map i) ?size_enum_ord // nth_ord_enum.
Qed.

(* When it returns, np.linalg.solve returns a solution of the system. *)
Lemma linalg_solve_sound (k r : nat) (A : 'M[F]_k) (B X : 'M[F]_(k, r)) :
  linalg_solve A B = Ok X -> A *m X = B.
Proof.
rewrite /linalg_solve; case: ifP => // Aunit [<-].
by rewrite mulKVmx.
Qed.

(* A solution of a non-singular system is the one np.linalg.solve finds. *)
Lemma linalg_solve_unique (k r : nat) (A : 'M[F]_k) (B X : 'M[F]_(k, r)) :
  A \in unitmx -> A *m X = B -> linalg_solve A B = Ok X.
Proof.
by move=> Aunit <-; rewrite /linalg_solve Aunit mulKmx.
Qed.

Lemma linalg_solve_stackE (b k r : nat) (A : 'I_b -> 'M[F]_k)
    (B : 'I_b -> 'M[F]_(k, r)) :
  linalg_solve_stack A B =
  if [forall i, A i \in unitmx]
  then Ok [ffun i => invmx (A i) *m B i] else Raise LinAlgError.
Proof.
rewrite /linalg_solve_stack.
rewrite (@mapM_if _ _ _ (fun i => A i \in unitmx)
           (fun i => invmx (A i) *m B i) LinAlgError) //.
rewrite all_enum_ord; case: ifP => //= _; congr Ok.
by apply/ffunP => i; rewrite !ffunE nth_map_enum_ord.
Qed.

End NumpyLemmas.

Section SingleModelLemmas.

Variable F : fieldType.

(* K[i] + eps * I, the matrix of the system of batch element i *)
Local Notation system self K i := (K i + hp_val (eps self) *: eye _ _).

Lemma _compute_solveE (b k r : nat) (self : MuyGPS F)
    (K : 'I_b -> 'M[F]_k) (Kcross : 'M[F]_(b, k))
    (T : 'I_b -> 'M[F]_(k, r)) :
  _compute_solve self K Kcross T =
  if [forall i, system self K i \in unitmx]
  then Ok (\matrix_(i, j)
             (row i Kcross *m (invmx (system self K i) *m T i)) 0 j)
  else Raise LinAlgError.
Proof.
rewrite /_compute_solve linalg_solve_stackE; case: ifP => //= _.
by congr Ok; apply/matrixP => i j; rewrite !mxE ffunE.
Qed.

Lemma _compute_diagonal_varianceE (b k : nat) (self : MuyGPS F)
    (K : 'I_b -> 'M[F]_k) (Kcross : 'M[F]_(b, k)) :
  _compute_diagonal_variance self K Kcross =
  if [forall i, system self K i \in unitmx]
  then Ok (\col_i (1 - (row i Kcross *m
                          (invmx (system self K i) *m (row i Kcross)^T)) 0 0))
  else Raise LinAlgError.
Proof.
rewrite /_compute_diagonal_variance.
rewrite (@mapM_if _ _ _ (fun i => system self K i \in unitmx)
  (fun i => 1 - (row i Kcross *m
                   (invmx (system self K i) *m (row i Kcross)^T)) 0 0)
  LinAlgError); first by move=> i; rewrite /linalg_solve; case: ifP.
rewrite all_enum_ord; case: ifP => //= _; congr Ok.
by apply/colP => i; rewrite mxE nth_map_enum_ord mxE.
Qed.

End SingleModelLemmas.

Section MultivariateLemmas.

Variable F : fieldType.
Variables b k r : nat.

(* _regress passes four arguments to a method of three parameters ... *)
Lemma call__compute_solve_arity (model : MuyGPS F)
    (a1 a2 a3 a4 : pyarg F b k) :
  call__compute_solve model [:: a1; a2; a3; a4] = Raise TypeError.
Proof. by case: a1 => // ?; case: a2 => // ?; case: a3. Qed.

(* ... and three to a method of two. *)
Lemma call__compute_diagonal_variance_arity (model : MuyGPS F)
    (a1 a2 a3 : pyarg F b k) :
  call__compute_diagonal_variance model [:: a1; a2; a3] = Raise TypeError.
Proof. by case: a1 => // ?; case: a2. Qed.

Lemma slice_responseE (T : 'I_b -> 'M[F]_(k, r)) (i : nat) :
  slice_response T i =
  if (i < r)%N =P true is ReflectT lt_ir
  then Ok (Ordinal lt_ir, fun a => col (Ordinal lt_ir) (T a))
  else Raise IndexError.
Proof.
rewrite /slice_response; case: eqP => [lt_ir|/negP nlt]; last by rewrite insubN.
by rewrite insubT.
Qed.

(* The first iteration of the loop of _regress never gets past the call
   of _compute_solve. *)
Lemma _regress_loop_cons (pairwise_dists : 'I_b -> 'M[F]_k)
    (crosswise_dists : 'M[F]_(b, k))
    (batch_nn_targets : 'I_b -> 'M[F]_(k, r)) (sigma_sq : SigmaSq F)
    (apply_sigma_sq : bool) (i : nat) (model : MuyGPS F)
    (ms : seq (MuyGPS F)) (responses : 'M[F]_(b, r))
    (diagonal_variance : option 'M[F]_(b, r)) :
  _regress_loop pairwise_dists crosswise_dists batch_nn_targets sigma_sq
    apply_sigma_sq i (model :: ms) responses diagonal_variance =
  if (i < r)%N then Raise TypeError else Raise IndexError.
Proof.
rewrite /= slice_responseE; case: eqP => [lt_ir|/negP/negbTE ->] //=.
by rewrite lt_ir.
Qed.

(* Every outcome of _regress. *)
Lemma _regressE (ms : seq (MuyGPS F)) (pairwise_dists : 'I_b -> 'M[F]_k)
    (crosswise_dists : 'M[F]_(b, k))
    (batch_nn_targets : 'I_b -> 'M[F]_(k, r)) (sigma_sq : SigmaSq F)
    (variance_mode : option string) (apply_sigma_sq : bool) :
  _regress ms pairwise_dists crosswise_dists batch_nn_targets sigma_sq
    variance_mode apply_sigma_sq =
  if ~~ supported variance_mode then Raise NotImplementedError
  else if ms is _ :: _ then
    if (0 < r)%N then Raise TypeError else Raise IndexError
  else if variance_mode is Some _ then Ok (ResponsesVariance 0 0)
  else Ok (Responses 0).
Proof.
rewrite /_regress; case: variance_mode => [mode|] /=.
  case: (mode == _) => //=.
  by case: ms => [|m ms] //; rewrite _regress_loop_cons; case: ltnP.
by case: ms => [|m ms] //; rewrite _regress_loop_cons; case: ltnP.
Qed.

End MultivariateLemmas.

Section SigmaSqLemmas.

Variable F : fieldType.

Lemma foldl_addE (z : F) (s : seq F) :
  foldl +%R z s = z + \sum_(x <- s) x.
Proof.
elim: s z => [|x s IHs] z /=; first by rewrite big_nil addr0.
by rewrite IHs big_cons addrA.
Qed.

Lemma pysumE (s : seq F) : pysum s = \sum_(x <- s) x.
Proof. by rewrite /pysum foldl_addE add0r. Qed.

Variables b k n r : nat.

Lemma _get_sigma_sqE (self : MuyGPS F) (K : 'I_b -> 'M[F]_k)
    (target_col : 'cV[F]_n) (nn_indices : 'I_b -> 'I_k -> 'I_n) :
  _get_sigma_sq self K target_col nn_indices =
  if [forall j, K j + hp_val (eps self) *: eye F k \in unitmx]
  then Ok [seq let y : 'cV[F]_k := \col_l target_col (nn_indices j l) 0 in
               (y^T *m (invmx (K j + hp_val (eps self) *: eye F k) *m y))
                 0 0
          | j <- enum 'I_b]
  else Raise LinAlgError.
Proof.
rewrite /_get_sigma_sq.
rewrite (@mapM_if _ _ _
  (fun j => K j + hp_val (eps self) *: eye F k \in unitmx)
  (fun j => let y : 'cV[F]_k := \col_l target_col (nn_indices j l) 0 in
     (y^T *m (invmx (K j + hp_val (eps self) *: eye F k) *m y)) 0 0)
  LinAlgError); first by move=> j; rewrite /linalg_solve; case: ifP.
by rewrite all_enum_ord.
Qed.

(* One pass of the loop body of sigma_sq_optim computes the estimate. *)
Lemma sigma_sq_termE (self : MuyGPS F) (K : 'I_b -> 'M[F]_k)
    (nn_indices : 'I_b -> 'I_k -> 'I_n) (targets : 'M[F]_(n, r))
    (i : 'I_r) :
  (s <- _get_sigma_sq self K (col i targets) nn_indices ;;
   sigma_sq_mean b k s) =
  if [forall j, K j + hp_val (eps self) *: eye F k \in unitmx]
  then if (b == 0)%N then Raise ZeroDivisionError
       else Ok (sigma_sq_estimate self K nn_indices targets i)
  else Raise LinAlgError.
Proof.
rewrite _get_sigma_sqE; case: ifP => //= _.
rewrite /sigma_sq_mean; case: ifP => // _; congr Ok.
rewrite /sigma_sq_estimate pysumE big_map big_enum /=; congr (_ / _).
apply: eq_bigr => j _ /=.
have -> // : \col_l col i targets (nn_indices j l) 0 =
             \col_l targets (nn_indices j l) i :> 'cV[F]_k.
by apply/colP => l; rewrite !mxE.
Qed.

End SigmaSqLemmas.

(* ---------------------------------------------------------------------- *)
(* The scenario, evaluated                                                *)
(* ---------------------------------------------------------------------- *)

Section Approximation.

Variable R : numFieldType.

(* Dividing by 1 + n moves a non-negative c by at most c * n. *)
Lemma nugget_shrink (c n : R) :
  0 <= c -> 0 <= n -> `|c / (1 + n) - c| <= c * n.
Proof.
move=> c0 n0.
have n1 : 0 < 1 + n by rewrite ltr_wpDr.
have -> : c / (1 + n) - c = - (c * n / (1 + n)).
  rewrite -{2}[c](mulfK (lt0r_neq0 n1)) -mulrBl mulrDr mulr1.
  by rewrite opprD addrA subrr add0r mulNr.
rewrite normrN ger0_norm; first by rewrite divr_ge0 ?mulr_ge0 // ltW.
by rewrite ler_pdivrMr // ler_peMr ?mulr_ge0 // lerDl.
Qed.

(* The same around 1 - c. *)
Lemma nugget_shrink_compl (c n : R) :
  0 <= c -> 0 <= n -> `|1 - c / (1 + n) - (1 - c)| <= c * n.
Proof.
move=> c0 n0; rewrite opprB [1 - _ + _]addrC addrA subrK.
by rewrite -opprB normrN nugget_shrink.
Qed.

End Approximation.

Section Dot3.

Variable F : fieldType.

(* A row of three entries times a column of three entries. *)
Lemma dot3 (a1 a2 a3 t1 t2 t3 : F) :
  ((\row_j nth 0 [:: a1; a2; a3] j : 'rV[F]_3)
   *m (\col_j nth 0 [:: t1; t2; t3] j : 'cV[F]_3)) 0 0
  = a1 * t1 + a2 * t2 + a3 * t3.
Proof.
by rewrite !mxE !big_ord_recl big_ord0 !mxE /= addr0 addrA.
Qed.

End Dot3.

Lemma nugget_gt0 : 0 < nugget.
Proof. by rewrite /nugget invr_gt0 exprn_gt0 // ltr0n. Qed.

Section Scenario.

Variable e : rat.
Hypothesis e_ge0 : 0 <= e.

Lemma scenario_system_unit (i : 'I_1) :
  scenario_K i + hp_val (eps (engine_with_noise e)) *: eye rat 3 \in unitmx.
Proof.
rewrite /scenario_K /eye scalemx1 -raddfD /= unitmxE det_scalar unitfE.
by rewrite expf_neq0 // lt0r_neq0 // ltr_wpDr.
Qed.

Lemma scenario_system_inv (i : 'I_1) :
  invmx (scenario_K i + hp_val (eps (engine_with_noise e)) *: eye rat 3) =
  ((1 + e)^-1)%:M.
Proof. by rewrite /scenario_K /eye scalemx1 -raddfD /= invmx_scalar. Qed.

Lemma scenario_solve :
  _compute_solve (engine_with_noise e) scenario_K scenario_Kcross
    scenario_targets = Ok (((14%:R / 5%:R) / (1 + e))%:M).
Proof.
rewrite _compute_solveE; case: forallP => [_|[]]; last first.
  exact: scenario_system_unit.
congr Ok; apply/matrixP => i j; rewrite !ord1 mxE scenario_system_inv.
rewrite mul_scalar_mx -scalemxAr mxE mulrC [RHS]mxE eqxx mulr1n.
rewrite row_id /scenario_Kcross /scenario_targets dot3.
by congr (_ / _); apply/eqP; vm_compute.
Qed.

End Scenario.

(** C1: for every kernel tensor K, crosswise matrix Kcross, targets and
    noise value, MuyGPS._compute_solve raises LinAlgError when one of the
    systems K_i + eps * I is singular, and otherwise returns responses
    whose row i is Kcross_i @ x for the solution x of
    (K_i + eps * I) x = batch_targets_i (and for every such x), each batch
    element by its own data alone.  In the scenario (k = 3, eps = 1e-5,
    identity kernel matrix, Kcross = [0.5, 0.3, 0.1], targets 2, 4, 6) the
    response is 2.8 / (1 + 1e-5), within 2.8e-5 of 2.8. *)
Theorem compute_solve_spec :
  (forall (F : fieldType) (b k r : nat) (self : MuyGPS F)
      (K : 'I_b -> 'M[F]_k) (Kcross : 'M[F]_(b, k))
      (T : 'I_b -> 'M[F]_(k, r)),
    if [forall i, K i + hp_val (eps self) *: eye F k \in unitmx]
    then exists (res : 'M[F]_(b, r)) (X : 'I_b -> 'M[F]_(k, r)),
      [/\ _compute_solve self K Kcross T = Ok res,
          forall i, (K i + hp_val (eps self) *: eye F k) *m X i = T i,
          forall i, row i res = row i Kcross *m X i
        & forall i (x : 'M[F]_(k, r)),
            (K i + hp_val (eps self) *: eye F k) *m x = T i ->
            row i res = row i Kcross *m x]
    else _compute_solve self K Kcross T = Raise LinAlgError)
  /\ (exists res : 'M[rat]_(1, 1),
       [/\ _compute_solve scenario_engine scenario_K scenario_Kcross
             scenario_targets = Ok res,
           res 0 0 = (14%:R / 5%:R) / (1 + nugget)
         & `|res 0 0 - 14%:R / 5%:R| <= 14%:R / 5%:R * nugget]).
Proof.
split.
  move=> F b k r self K Kcross T; rewrite _compute_solveE.
  case Aunit: [forall i, K i + hp_val (eps self) *: eye F k \in unitmx] => //.
  move/forallP: Aunit => Aunit.
  pose A i := K i + hp_val (eps self) *: eye F k.
  exists (\matrix_(i, j) (row i Kcross *m (invmx (A i) *m T i)) 0 j).
  exists (fun i => invmx (A i) *m T i).
  have rowE i x : A i *m x = T i ->
      row i (\matrix_(i, j) (row i Kcross *m (invmx (A i) *m T i)) 0 j) =
      row i Kcross *m x.
    move=> AxT; apply/rowP => j.
    by rewrite [LHS]mxE [LHS]mxE -AxT (mulKmx (Aunit i)).
  split; first by [].
  - by move=> i; rewrite (mulKVmx (Aunit i)).
  - by move=> i; apply: rowE; rewrite (mulKVmx (Aunit i)).
  - exact: rowE.
have := nugget_gt0; rewrite /scenario_engine; move: nugget => e e_gt0.
have e_ge0 : 0 <= e by rewrite ltW.
have c_ge0 : 0 <= 14%:R / 5%:R :> rat by rewrite divr_ge0 // ler0n.
rewrite (scenario_solve e_ge0); move: c_ge0; move: (14%:R / 5%:R) => c c_ge0.
exists ((c / (1 + e))%:M).
have res00 : ((c / (1 + e))%:M : 'M[rat]_1) 0 0 = c / (1 + e).
  by rewrite mxE eqxx mulr1n.
by split; rewrite ?res00 //; apply: nugget_shrink.
Qed.

Lemma scenario_variance (e : rat) :
  0 <= e ->
  _compute_diagonal_variance (engine_with_noise e) scenario_K
    scenario_Kcross = Ok ((1 - (7%:R / 20%:R) / (1 + e))%:M).
Proof.
move=> e_ge0; rewrite _compute_diagonal_varianceE.
case: forallP => [_|[]]; last exact: scenario_system_unit.
congr Ok; apply/matrixP => i j; rewrite !ord1 mxE scenario_system_inv //.
rewrite mul_scalar_mx -scalemxAr mxE mulrC [RHS]mxE eqxx mulr1n.
have -> : (row 0 scenario_Kcross)^T =
    \col_l nth 0 [:: 1 / 2%:R; 3%:R / 10%:R; 1 / 10%:R] l :> 'cV[rat]_3.
  by apply/colP => l; rewrite !mxE.
rewrite row_id /scenario_Kcross dot3.
by congr (_ - _ / _); apply/eqP; vm_compute.
Qed.

(** C2: for every kernel tensor K, crosswise matrix Kcross and noise
    value, MuyGPS._compute_diagonal_variance raises LinAlgError when one
    of the systems K_i + eps * I is singular, and otherwise returns, for
    each batch element i, var_i = 1 - Kcross_i @ x for the solution x of
    (K_i + eps * I) x = Kcross_i (and for every such x).  In the scenario
    (identity kernel matrix, Kcross = [0.5, 0.3, 0.1], eps = 1e-5) the
    variance is 1 - 0.35 / (1 + 1e-5), within 0.35e-5 of 0.65. *)
Theorem compute_diagonal_variance_spec :
  (forall (F : fieldType) (b k : nat) (self : MuyGPS F)
      (K : 'I_b -> 'M[F]_k) (Kcross : 'M[F]_(b, k)),
    if [forall i, K i + hp_val (eps self) *: eye F k \in unitmx]
    then exists (var : 'cV[F]_b) (X : 'I_b -> 'cV[F]_k),
      [/\ _compute_diagonal_variance self K Kcross = Ok var,
          forall i,
            (K i + hp_val (eps self) *: eye F k) *m X i = (row i Kcross)^T,
          forall i, var i 0 = 1 - (row i Kcross *m X i) 0 0
        & forall i (x : 'cV[F]_k),
            (K i + hp_val (eps self) *: eye F k) *m x = (row i Kcross)^T ->
            var i 0 = 1 - (row i Kcross *m x) 0 0]
    else _compute_diagonal_variance self K Kcross = Raise LinAlgError)
  /\ (exists var : 'cV[rat]_1,
       [/\ _compute_diagonal_variance scenario_engine scenario_K
             scenario_Kcross = Ok var,
           var 0 0 = 1 - (7%:R / 20%:R) / (1 + nugget)
         & `|var 0 0 - 13%:R / 20%:R| <= 7%:R / 20%:R * nugget]).
Proof.
split.
  move=> F b k self K Kcross; rewrite _compute_diagonal_varianceE.
  case Aunit: [forall i, K i + hp_val (eps self) *: eye F k \in unitmx] => //.
  move/forallP: Aunit => Aunit.
  pose A i := K i + hp_val (eps self) *: eye F k.
  exists (\col_i (1 - (row i Kcross *m (invmx (A i) *m (row i Kcross)^T)) 0 0)).
  exists (fun i => invmx (A i) *m (row i Kcross)^T).
  have varE i x : A i *m x = (row i Kcross)^T ->
      (\col_i (1 - (row i Kcross *m (invmx (A i) *m (row i Kcross)^T)) 0 0))
        i 0 = 1 - (row i Kcross *m x) 0 0.
    by move=> AxT; rewrite [LHS]mxE -AxT (mulKmx (Aunit i)).
  split; first by [].
  - by move=> i; rewrite (mulKVmx (Aunit i)).
  - by move=> i; apply: varE; rewrite (mulKVmx (Aunit i)).
  - exact: varE.
have := nugget_gt0; rewrite /scenario_engine; move: nugget => e e_gt0.
have e_ge0 : 0 <= e by rewrite ltW.
have c_ge0 : 0 <= 7%:R / 20%:R :> rat by rewrite divr_ge0 // ler0n.
have -> : 13%:R / 20%:R = 1 - 7%:R / 20%:R :> rat by apply/eqP; vm_compute.
rewrite (scenario_variance e_ge0); move: c_ge0; move: (7%:R / 20%:R) => c c_ge0.
exists ((1 - c / (1 + e))%:M).
have var00 : ((1 - c / (1 + e))%:M : 'M[rat]_1) 0 0 = 1 - c / (1 + e).
  by rewrite mxE eqxx mulr1n.
by split; rewrite ?var00 //; apply: nugget_shrink_compl.
Qed.

(* ---------------------------------------------------------------------- *)
(* The multivariate engine against the single-model methods               *)
(* ---------------------------------------------------------------------- *)

(* An unsupported variance mode is refused before any model is called: the
   call raises NotImplementedError, not TypeError. *)
Lemma mm_regress_full_mode_counterexample :
  mm_regress scenario_mm scenario_pairwise scenario_Kcross
    scenario_nn_targets (Some "full"%string) true
    = Raise NotImplementedError
  /\ mm_regress scenario_mm scenario_pairwise scenario_Kcross
       scenario_nn_targets (Some "full"%string) true
     <> Raise TypeError.
Proof. by rewrite /mm_regress _regressE. Qed.

(** C3 (amended): _regress passes four positional arguments to
    MuyGPS._compute_solve, which has three parameters, and three to
    MuyGPS._compute_diagonal_variance, which has two; so for an engine
    with at least one model and targets with at least one response column,
    MultivariateMuyGPS.regress raises TypeError whenever variance_mode is
    None or "diagonal", whatever the tensors and apply_sigma_sq are, and
    raises NotImplementedError for any other variance_mode. *)
Theorem mm_regress_raises (F : fieldType) (b k r : nat)
    (self : MultivariateMuyGPS F) (pairwise_dists : 'I_b -> 'M[F]_k)
    (crosswise_dists : 'M[F]_(b, k))
    (batch_nn_targets : 'I_b -> 'M[F]_(k, r))
    (variance_mode : option string) (apply_sigma_sq : bool) :
  (0 < size (models self))%N -> (0 < r)%N ->
  [/\ forall (model : MuyGPS F) (a1 a2 a3 a4 : pyarg F b k),
        call__compute_solve model [:: a1; a2; a3; a4] = Raise TypeError,
      forall (model : MuyGPS F) (a1 a2 a3 : pyarg F b k),
        call__compute_diagonal_variance model [:: a1; a2; a3]
        = Raise TypeError
    & mm_regress self pairwise_dists crosswise_dists batch_nn_targets
        variance_mode apply_sigma_sq
      = if supported variance_mode then Raise TypeError
        else Raise NotImplementedError].
Proof.
move=> models_gt0 r_gt0; split.
- exact: call__compute_solve_arity.
- exact: call__compute_diagonal_variance_arity.
rewrite /mm_regress _regressE r_gt0.
by case: (models self) models_gt0 => //; case: (supported _).
Qed.

Lemma mm_regress_raises_witness :
  [/\ (0 < size (models scenario_mm))%N, (0 < 2)%N
    & mm_regress scenario_mm scenario_pairwise scenario_Kcross
        scenario_nn_targets None true = Raise TypeError].
Proof.
split=> //.
by case: (@mm_regress_raises _ 1 3 2 scenario_mm scenario_pairwise
            scenario_Kcross scenario_nn_targets None true isT isT).
Defined.

(* ---------------------------------------------------------------------- *)
(* Variance modes                                                         *)
(* ---------------------------------------------------------------------- *)

(* A square matrix that sends a non-zero vector to zero has no inverse. *)
Lemma kernel_vector_singular (F : fieldType) (n : nat) (A : 'M[F]_n)
    (v : 'cV[F]_n) :
  A *m v = 0 -> v != 0 -> A \notin unitmx.
Proof.
move=> Av0 vN0; apply/negP => Aunit.
by move: vN0; rewrite -(mulKmx Aunit v) Av0 mulmx0 eqxx.
Qed.

Lemma duplicate_system_singular (i : 'I_1) :
  duplicate_K i + hp_val (eps (engine_with_noise 0)) *: eye rat 2
    \notin unitmx.
Proof.
rewrite /= scale0r addr0.
apply: (@kernel_vector_singular _ _ _ (\col_j nth 0 [:: 1; -1] j)).
  apply/matrixP => a c; rewrite !mxE !big_ord_recl big_ord0 !mxE /=.
  by rewrite !mul1r addr0 subrr.
apply/eqP => /matrixP /(_ 0 0); rewrite !mxE /= => /eqP.
by rewrite oner_eq0.
Qed.

(* MuyGPS.regress looks at variance_mode only after the solve: with a
   singular system and an unsupported mode the call raises LinAlgError,
   not the error of the unsupported mode. *)
Lemma regress_mode_after_solve_counterexample :
  regress (engine_with_noise 0) duplicate_K duplicate_Kcross
    duplicate_targets (Some "full"%string) = Raise LinAlgError
  /\ regress (engine_with_noise 0) duplicate_K duplicate_Kcross
       duplicate_targets (Some "full"%string) <> Raise NotImplementedError.
Proof.
rewrite /regress _compute_solveE.
case: forallP => [/(_ 0)|_ //].
by rewrite (negbTE (duplicate_system_singular 0)).
Qed.

(** C4 (amended): MuyGPS.regress first solves for the responses.  When
    every system K_i + eps * I is non-singular it returns the responses
    alone if variance_mode is None, the pair (responses,
    diagonal_variance) if it is "diagonal", and raises
    NotImplementedError for any other value; when a system is singular
    the call raises LinAlgError under every variance_mode, the
    unsupported ones included.  MultivariateMuyGPS._regress and regress
    raise NotImplementedError for an unsupported variance_mode before any
    model is evaluated, whatever the models and tensors are. *)
Theorem regress_variance_modes :
  (forall (F : fieldType) (b k r : nat) (self : MuyGPS F)
      (K : 'I_b -> 'M[F]_k) (Kcross : 'M[F]_(b, k))
      (T : 'I_b -> 'M[F]_(k, r)) (variance_mode : option string),
    let A i := K i + hp_val (eps self) *: eye F k in
    let responses : 'M[F]_(b, r) :=
      \matrix_(i, j) (row i Kcross *m (invmx (A i) *m T i)) 0 j in
    let diagonal_variance : 'cV[F]_b :=
      \col_i (1 - (row i Kcross *m (invmx (A i) *m (row i Kcross)^T)) 0 0)
    in
    regress self K Kcross T variance_mode =
    if [forall i, A i \in unitmx] then
      match variance_mode with
      | None => Ok (Responses responses)
      | Some mode =>
          if mode == "diagonal"%string
          then Ok (ResponsesVariance responses diagonal_variance)
          else Raise NotImplementedError
      end
    else Raise LinAlgError)
  /\ (forall (F : fieldType) (b k r : nat) (self : MultivariateMuyGPS F)
        (pairwise_dists : 'I_b -> 'M[F]_k) (crosswise_dists : 'M[F]_(b, k))
        (batch_nn_targets : 'I_b -> 'M[F]_(k, r))
        (variance_mode : option string) (apply_sigma_sq : bool),
      ~~ supported variance_mode ->
      _regress (models self) pairwise_dists crosswise_dists batch_nn_targets
        (mm_sigma_sq self) variance_mode apply_sigma_sq
        = Raise NotImplementedError
      /\ mm_regress self pairwise_dists crosswise_dists batch_nn_targets
           variance_mode apply_sigma_sq = Raise NotImplementedError).
Proof.
split.
  move=> F b k r self K Kcross T mode /=.
  rewrite /regress _compute_solveE _compute_diagonal_varianceE.
  by case: [forall i, K i + hp_val (eps self) *: eye F k \in unitmx].
move=> F b k r self pairwise_dists crosswise_dists batch_nn_targets.
move=> variance_mode apply_sigma_sq unsupported.
by rewrite /mm_regress !_regressE unsupported.
Qed.

Lemma regress_variance_modes_witness :
  ~~ supported (Some "full"%string)
  /\ mm_regress scenario_mm scenario_pairwise scenario_Kcross
       scenario_nn_targets (Some "full"%string) false
     = Raise NotImplementedError.
Proof.
split; first by [].
by case: (proj2 regress_variance_modes _ 1 3 2 scenario_mm scenario_pairwise
            scenario_Kcross scenario_nn_targets (Some "full"%string) false
            isT).
Defined.

(* ---------------------------------------------------------------------- *)
(* The scale estimator                                                    *)
(* ---------------------------------------------------------------------- *)

Section SigmaSqOptim.

Variable F : fieldType.
Variables b k n r : nat.
Variable K : 'I_b -> 'M[F]_k.
Variable nn_indices : 'I_b -> 'I_k -> 'I_n.
Variable targets : 'M[F]_(n, r).

Local Notation h0 := (mkHyperparameter (0 : F) Fixed).

(* self.sigma_sq[i]._set_val(g i), on the list *)
Local Notation update g :=
  (fun (ss : seq (Hyperparameter F)) (i : 'I_r) =>
     set_nth h0 ss i (_set_val (g i) (nth h0 ss i))).

Lemma nth_foldl_update (g : 'I_r -> F) (dims : seq 'I_r)
    (ss : seq (Hyperparameter F)) (i : 'I_r) :
  uniq dims ->
  nth h0 (foldl (update g) ss dims) i =
  if i \in dims then _set_val (g i) (nth h0 ss i) else nth h0 ss i.
Proof.
elim: dims ss => [|d dims IHdims] ss //= /andP[d_notin dims_uniq].
rewrite IHdims // in_cons nth_set_nth /= val_eqE.
case: (i =P d) => [->|_] //=.
by rewrite (negbTE d_notin).
Qed.

Lemma size_foldl_update (g : 'I_r -> F) (dims : seq 'I_r)
    (ss : seq (Hyperparameter F)) :
  all (fun i : 'I_r => i < size ss)%N dims ->
  size (foldl (update g) ss dims) = size ss.
Proof.
elim: dims ss => [|d dims IHdims] ss //= /andP[lt_d lt_dims].
have sizeE : size (set_nth h0 ss d (_set_val (g d) (nth h0 ss d))) = size ss.
  by rewrite size_set_nth; apply/maxn_idPr.
by rewrite IHdims sizeE.
Qed.

(* The loop stores one estimate per dimension and ends with None. *)
Lemma sigma_sq_optim_loopE (dims : seq 'I_r) (self : MuyGPS F) :
  [forall j, K j + hp_val (eps self) *: eye F k \in unitmx] ->
  (0 < b)%N ->
  all (fun i : 'I_r => i < size (sigma_sq self))%N dims ->
  sigma_sq_optim_loop self K nn_indices targets dims =
  (mkMuyGPS (kern self) (metric self) (kernel self) (eps self)
     (foldl (update (sigma_sq_estimate self K nn_indices targets))
        (sigma_sq self) dims),
   Ok tt).
Proof.
elim: dims self => [|i dims IHdims] self; first by case: self.
move=> Aunit b_gt0 /= /andP[lt_i lt_dims].
rewrite lt_i sigma_sq_termE Aunit (gtn_eqF b_gt0) /= IHdims //=.
rewrite size_set_nth (maxn_idPr lt_i).
exact: lt_dims.
Qed.

(** C5: when every system K_j + eps * I is non-singular, the batch is
    not empty and the engine holds a scale parameter for every response
    dimension, MuyGPS.sigma_sq_optim evaluates to None; what it computes
    for dimension i, the sum over the neighbourhoods j of
    y_j^T @ solve(K_j + eps * I, y_j) divided by k * batch_count, is
    stored as the value of self.sigma_sq[i], and nothing else of the
    engine changes. *)
Theorem sigma_sq_optim_stores (self : MuyGPS F) :
  [forall j, K j + hp_val (eps self) *: eye F k \in unitmx] ->
  (0 < b)%N -> (r <= size (sigma_sq self))%N ->
  exists self' : MuyGPS F,
    [/\ sigma_sq_optim self K nn_indices targets = (self', Ok tt),
        [/\ kern self' = kern self, metric self' = metric self,
            kernel self' = kernel self & eps self' = eps self],
        size (sigma_sq self') = size (sigma_sq self)
      & forall i : 'I_r,
          nth h0 (sigma_sq self') i =
          _set_val (sigma_sq_estimate self K nn_indices targets i)
            (nth h0 (sigma_sq self) i)].
Proof.
move=> Aunit b_gt0 le_r.
have lt_dims : all (fun i : 'I_r => i < size (sigma_sq self))%N (enum 'I_r).
  by apply/allP => i _; apply: leq_trans le_r.
eexists; split; first exact: sigma_sq_optim_loopE.
- by [].
- by rewrite /= size_foldl_update.
by move=> i; rewrite /= nth_foldl_update ?enum_uniq // mem_enum.
Qed.

End SigmaSqOptim.

Lemma sigma_sq_optim_stores_witness :
  [/\ [forall j, scenario_K j + hp_val (eps scenario_engine) *: eye rat 3
                 \in unitmx],
      (0 < 1)%N, (1 <= size (sigma_sq scenario_engine))%N
    & exists self' : MuyGPS rat,
        sigma_sq_optim scenario_engine scenario_K scenario_nn_indices
          scenario_train_targets = (self', Ok tt)].
Proof.
have Aunit : [forall j, scenario_K j
    + hp_val (eps scenario_engine) *: eye rat 3 \in unitmx].
  by apply/forallP => j; apply: scenario_system_unit; rewrite ltW ?nugget_gt0.
split=> //.
have [self' [optimE _ _ _]] :=
  @sigma_sq_optim_stores _ 1 3 3 1 scenario_K scenario_nn_indices
    scenario_train_targets scenario_engine Aunit isT isT.
by exists self'.
Defined.

(* ====================================================================== *)
(* Further properties of the single-model engine                          *)
(* ====================================================================== *)

Section SolveStructure.

Variable F : fieldType.
Variables b k : nat.

Lemma col_mulmx (m n p : nat) (A : 'M[F]_(m, n)) (B : 'M[F]_(n, p))
    (j : 'I_p) :
  col j (A *m B) = A *m col j B.
Proof.
apply/colP => a; rewrite !mxE.
by apply: eq_bigr => l _; rewrite mxE.
Qed.

(** X1: the responses of several response dimensions are computed
    column by column: solving for column j of the targets alone gives
    column j of the responses of the whole target tensor, and fails
    exactly when the whole solve fails. *)
Theorem compute_solve_column (r : nat) (self : MuyGPS F)
    (K : 'I_b -> 'M[F]_k) (Kcross : 'M[F]_(b, k))
    (T : 'I_b -> 'M[F]_(k, r)) (j : 'I_r) :
  _compute_solve self K Kcross (fun i => col j (T i)) =
  (responses <- _compute_solve self K Kcross T ;; Ok (col j responses)).
Proof.
rewrite !_compute_solveE; case: ifP => //= _; congr Ok.
apply/matrixP => i c; rewrite ord1 [LHS]mxE [RHS]mxE [RHS]mxE.
by rewrite -!col_mulmx mxE.
Qed.

(** X2: the diagonal variance is one minus the response the same solve
    gives when the targets of each batch element are its own
    cross-covariances: _compute_diagonal_variance(K, Kcross) equals
    1 - _compute_solve(K, Kcross, Kcross[:, :, None]), failure included. *)
Theorem diagonal_variance_as_solve (self : MuyGPS F)
    (K : 'I_b -> 'M[F]_k) (Kcross : 'M[F]_(b, k)) :
  _compute_diagonal_variance self K Kcross =
  (responses <- _compute_solve self K Kcross (fun i => (row i Kcross)^T) ;;
   Ok (\col_i (1 - responses i 0))).
Proof.
rewrite _compute_diagonal_varianceE _compute_solveE; case: ifP => //= _.
by congr Ok; apply/colP => i; rewrite !mxE.
Qed.

End SolveStructure.

Section VarianceBound.

Variable R : numFieldType.
Variables b k : nat.

(** X3: when every system K_i + eps * I is symmetric, positive
    semi-definite and non-singular, _compute_diagonal_variance returns,
    and no variance it returns exceeds 1. *)
Theorem diagonal_variance_le1 (self : MuyGPS R) (K : 'I_b -> 'M[R]_k)
    (Kcross : 'M[R]_(b, k)) :
  (forall i, symmetric_psd (K i + hp_val (eps self) *: eye R k)) ->
  [forall i, K i + hp_val (eps self) *: eye R k \in unitmx] ->
  exists2 var : 'cV[R]_b,
    _compute_diagonal_variance self K Kcross = Ok var
    & forall i, var i 0 <= 1.
Proof.
move=> Apsd Aunit; rewrite _compute_diagonal_varianceE Aunit.
eexists; first by [].
move=> i; rewrite mxE gerBl.
have [Asym Apos] := Apsd i; move/forallP/(_ i): Aunit => Aunit.
set A := K i + _ in Asym Apos Aunit *.
set x := row i Kcross; set w := invmx A *m x^T.
have -> : x = w^T *m A.
  by rewrite -[in RHS]Asym -trmx_mul /w (mulKVmx Aunit) trmxK.
by rewrite -mulmxA -/w mulmxA.
Qed.

End VarianceBound.

Lemma scaled_identity_psd (n : nat) (a : rat) :
  0 <= a -> symmetric_psd (a%:M : 'M[rat]_n).
Proof.
move=> a_ge0; split; first by rewrite tr_scalar_mx.
move=> v; rewrite mul_mx_scalar -scalemxAl mxE mulr_ge0 //.
by rewrite mxE sumr_ge0 // => i _; rewrite mxE -expr2 sqr_ge0.
Qed.

Lemma diagonal_variance_le1_witness :
  [/\ forall i, symmetric_psd
        (scenario_K i + hp_val (eps scenario_engine) *: eye rat 3),
      [forall i, scenario_K i + hp_val (eps scenario_engine) *: eye rat 3
                 \in unitmx]
    & exists2 var : 'cV[rat]_1,
        _compute_diagonal_variance scenario_engine scenario_K
          scenario_Kcross = Ok var
        & forall i, var i 0 <= 1].
Proof.
have n_ge0 : 0 <= nugget := ltW nugget_gt0.
have Apsd i : symmetric_psd
    (scenario_K i + hp_val (eps scenario_engine) *: eye rat 3).
  rewrite /scenario_K /eye scalemx1 -raddfD.
  by apply: scaled_identity_psd; apply: addr_ge0.
have Aunit : [forall i, scenario_K i
    + hp_val (eps scenario_engine) *: eye rat 3 \in unitmx].
  by apply/forallP => i; apply: scenario_system_unit.
split; [exact: Apsd | exact: Aunit |].
exact: (@diagonal_variance_le1 _ 1 3 scenario_engine scenario_K
          scenario_Kcross Apsd Aunit).
Defined.

(* ====================================================================== *)
(* Further properties of the scale estimator                              *)
(* ====================================================================== *)

Section SigmaSqSeries.

Variable F : fieldType.
Variables b k n r : nat.
Variable K : 'I_b -> 'M[F]_k.
Variable nn_indices : 'I_b -> 'I_k -> 'I_n.
Variable targets : 'M[F]_(n, r).

Local Notation h0 := (mkHyperparameter (0 : F) Fixed).

Lemma _get_sigma_sq_seriesE (self : MuyGPS F) (target_col : 'cV[F]_n) :
  _get_sigma_sq_series self K nn_indices target_col =
  if [forall j, K j + hp_val (eps self) *: eye F k \in unitmx]
  then Ok (k%:R^-1 *:
             \col_j (let y : 'cV[F]_k :=
                       \col_l target_col (nn_indices j l) 0 in
                     (y^T *m (invmx (K j + hp_val (eps self) *: eye F k)
                              *m y)) 0 0))
  else Raise LinAlgError.
Proof.
rewrite /_get_sigma_sq_series _get_sigma_sqE; case: ifP => //= _.
congr Ok; congr (_ *: _); apply/colP => j.
by rewrite [LHS]mxE nth_map_enum_ord [RHS]mxE.
Qed.

(** X4: with a non-empty batch of non-empty neighbourhoods, non-singular
    systems and a scale parameter for every response dimension, the value
    sigma_sq_optim stores for dimension i is the mean over the batch of
    the series _get_sigma_sq_series returns for column i of the targets. *)
Theorem sigma_sq_optim_is_series_mean (self : MuyGPS F) :
  (0 < k)%N -> (0 < b)%N ->
  [forall j, K j + hp_val (eps self) *: eye F k \in unitmx] ->
  (r <= size (sigma_sq self))%N ->
  exists self' : MuyGPS F,
    sigma_sq_optim self K nn_indices targets = (self', Ok tt)
    /\ forall i : 'I_r,
         exists2 series : 'cV[F]_b,
           _get_sigma_sq_series self K nn_indices (col i targets) = Ok series
           & hp_val (nth h0 (sigma_sq self') i)
             = (\sum_j series j 0) / b%:R.
Proof.
move=> _ b_gt0 Aunit le_r.
have lt_dims : all (fun i : 'I_r => i < size (sigma_sq self))%N (enum 'I_r).
  by apply/allP => i _; apply: leq_trans le_r.
eexists; split; first exact: sigma_sq_optim_loopE.
move=> i; rewrite _get_sigma_sq_seriesE Aunit; eexists; first by [].
rewrite /= nth_foldl_update ?enum_uniq // mem_enum /= /sigma_sq_estimate.
rewrite natrM invfM mulrA; congr (_ / _).
rewrite mulrC mulr_sumr; apply: eq_bigr => j _.
have -> : \col_l targets (nn_indices j l) i =
          \col_l col i targets (nn_indices j l) 0 :> 'cV[F]_k.
  by apply/colP => l; rewrite !mxE.
by rewrite [RHS]mxE [X in _ = _ * X]mxE.
Qed.

End SigmaSqSeries.

Lemma sigma_sq_optim_is_series_mean_witness :
  [/\ (0 < 3)%N, (0 < 1)%N,
      [forall j, scenario_K j + hp_val (eps scenario_engine) *: eye rat 3
                 \in unitmx],
      (1 <= size (sigma_sq scenario_engine))%N
    & exists self' : MuyGPS rat,
        sigma_sq_optim scenario_engine scenario_K scenario_nn_indices
          scenario_train_targets = (self', Ok tt)].
Proof.
have Aunit : [forall j, scenario_K j
    + hp_val (eps scenario_engine) *: eye rat 3 \in unitmx].
  apply/forallP => j; apply: scenario_system_unit; exact: ltW nugget_gt0.
split; [by [] | by [] | exact: Aunit | by [] |].
have [self' [optimE _]] :=
  @sigma_sq_optim_is_series_mean _ 1 3 3 1 scenario_K scenario_nn_indices
    scenario_train_targets scenario_engine isT isT Aunit isT.
by exists self'.
Defined.
Section SigmaSqFailures.

Variable F : fieldType.
Variables b k n r : nat.
Variable K : 'I_b -> 'M[F]_k.
Variable nn_indices : 'I_b -> 'I_k -> 'I_n.
Variable targets : 'M[F]_(n, r).

Local Notation h0 := (mkHyperparameter (0 : F) Fixed).

Local Notation update g :=
  (fun (ss : seq (Hyperparameter F)) (i : 'I_r) =>
     set_nth h0 ss i (_set_val (g i) (nth h0 ss i))).

(* The dimensions for which the engine holds no scale parameter *)
Local Notation missing self :=
  (fun i : 'I_r => size (sigma_sq self) <= i)%N.

(* The loop updates the dimensions that come before the first one without
   a scale parameter, and stops there with IndexError. *)
Lemma sigma_sq_optim_loop_prefix (dims : seq 'I_r) (self : MuyGPS F) :
  [forall j, K j + hp_val (eps self) *: eye F k \in unitmx] ->
  (0 < b)%N ->
  sigma_sq_optim_loop self K nn_indices targets dims =
  (mkMuyGPS (kern self) (metric self) (kernel self) (eps self)
     (foldl (update (sigma_sq_estimate self K nn_indices targets))
        (sigma_sq self) (take (find (missing self) dims) dims)),
   if has (missing self) dims then Raise IndexError else Ok tt).
Proof.
elim: dims self => [|i dims IHdims] self; first by case: self.
move=> Aunit b_gt0 /=; case: ltnP => [lt_i|le_i]; last first.
  by case: self {Aunit le_i}.
rewrite sigma_sq_termE Aunit (gtn_eqF b_gt0) /= IHdims //=.
by rewrite size_set_nth (maxn_idPr lt_i).
Qed.

Lemma find_missing_enum (s : nat) :
  (s < r)%N -> find (fun i : 'I_r => s <= i)%N (enum 'I_r) = s.
Proof.
move=> lt_sr; pose o := Ordinal lt_sr.
have has_o : has (fun i : 'I_r => s <= i)%N (enum 'I_r).
  by apply/hasP; exists o; rewrite ?mem_enum /=.
have lt_find : (find (fun i : 'I_r => s <= i)%N (enum 'I_r) < r)%N.
  by move: has_o; rewrite has_find size_enum_ord.
apply/eqP; rewrite eqn_leq; apply/andP; split.
  rewrite leqNgt; apply/negP => /(before_find o).
  by rewrite nth_enum_ord // leqnn.
by have := nth_find o has_o; rewrite nth_enum_ord.
Qed.

(** X5: when the engine holds fewer scale parameters than the targets
    have response dimensions (systems non-singular, batch not empty),
    sigma_sq_optim raises IndexError, and by then it has stored the
    estimates of the dimensions that come first: the exception leaves the
    engine half updated. *)
Theorem sigma_sq_optim_too_few_scales (self : MuyGPS F) :
  [forall j, K j + hp_val (eps self) *: eye F k \in unitmx] ->
  (0 < b)%N -> (size (sigma_sq self) < r)%N ->
  exists self' : MuyGPS F,
    [/\ sigma_sq_optim self K nn_indices targets = (self', Raise IndexError),
        size (sigma_sq self') = size (sigma_sq self)
      & forall i : 'I_r, (i < size (sigma_sq self))%N ->
          nth h0 (sigma_sq self') i =
          _set_val (sigma_sq_estimate self K nn_indices targets i)
            (nth h0 (sigma_sq self) i)].
Proof.
move=> Aunit b_gt0 lt_r.
rewrite /sigma_sq_optim sigma_sq_optim_loop_prefix // find_missing_enum //.
have -> : has (missing self) (enum 'I_r).
  by apply/hasP; exists (Ordinal lt_r); rewrite ?mem_enum /=.
eexists; split; first by [].
  rewrite /= size_foldl_update //; apply/allP => i.
  by rewrite in_take ?mem_enum // index_enum_ord.
move=> i lt_i /=; rewrite nth_foldl_update ?take_uniq ?enum_uniq //.
by rewrite in_take ?mem_enum // index_enum_ord lt_i.
Qed.

End SigmaSqFailures.

Lemma sigma_sq_optim_too_few_scales_witness :
  [/\ [forall j, scenario_K j + hp_val (eps scenario_engine) *: eye rat 3
                 \in unitmx],
      (0 < 1)%N, (size (sigma_sq scenario_engine) < 2)%N
    & exists self' : MuyGPS rat,
        sigma_sq_optim scenario_engine scenario_K scenario_nn_indices
          (row_mx scenario_train_targets scenario_train_targets)
        = (self', Raise IndexError)].
Proof.
have Aunit : [forall j, scenario_K j
    + hp_val (eps scenario_engine) *: eye rat 3 \in unitmx].
  apply/forallP => j; apply: scenario_system_unit; exact: ltW nugget_gt0.
split; [exact: Aunit | by [] | by [] |].
have [self' [optimE _ _]] :=
  @sigma_sq_optim_too_few_scales _ 1 3 3 2 scenario_K scenario_nn_indices
    (row_mx scenario_train_targets scenario_train_targets)
    scenario_engine Aunit isT isT.
by exists self'.
Defined.

(** X6: a failure in the first response dimension leaves the engine as it
    was: with a scale parameter present, sigma_sq_optim raises LinAlgError
    when one of the systems K_j + eps * I is singular, and
    ZeroDivisionError when the batch is empty, and the engine it leaves
    behind is the one it was given. *)
Theorem sigma_sq_optim_failure_keeps_engine (F : fieldType) (k n r : nat)
    (self : MuyGPS F) (targets : 'M[F]_(n, r.+1)) :
  (0 < size (sigma_sq self))%N ->
  (forall (b : nat) (K : 'I_b -> 'M[F]_k)
      (nn_indices : 'I_b -> 'I_k -> 'I_n),
    ~~ [forall j, K j + hp_val (eps self) *: eye F k \in unitmx] ->
    sigma_sq_optim self K nn_indices targets = (self, Raise LinAlgError))
  /\ (forall (K : 'I_0 -> 'M[F]_k) (nn_indices : 'I_0 -> 'I_k -> 'I_n),
      sigma_sq_optim self K nn_indices targets
      = (self, Raise ZeroDivisionError)).
Proof.
move=> scale_present; split=> [b K nn_indices /negbTE singular|K nn_indices].
  by rewrite /sigma_sq_optim enum_ordSl /= scale_present sigma_sq_termE
             singular.
rewrite /sigma_sq_optim enum_ordSl /= scale_present sigma_sq_termE /=.
by case: forallP => // -[] [].
Qed.

Lemma sigma_sq_optim_failure_keeps_engine_witness :
  [/\ (0 < size (sigma_sq (engine_with_noise 0)))%N,
      ~~ [forall j, duplicate_K j
             + hp_val (eps (engine_with_noise 0)) *: eye rat 2 \in unitmx]
    & sigma_sq_optim (engine_with_noise 0) duplicate_K
        (fun _ l => l) (duplicate_targets ord0)
      = (engine_with_noise 0, Raise LinAlgError)].
Proof.
have singular : ~~ [forall j, duplicate_K j
    + hp_val (eps (engine_with_noise 0)) *: eye rat 2 \in unitmx].
  by apply/forallP => /(_ ord0); apply/negP; apply: duplicate_system_singular.
split; [by [] | exact: singular |].
have [failure _] :=
  @sigma_sq_optim_failure_keeps_engine _ 2 2 0 (engine_with_noise 0)
    (duplicate_targets ord0) isT.
exact: failure.
Defined.

Lemma forall_ord1 (p : pred 'I_1) : [forall i, p i] = p ord0.
Proof.
by apply/forallP/idP => [/(_ ord0)|p0 i] //; rewrite ord1.
Qed.

(** X7: for a single neighbourhood, what sigma_sq_optim computes for a
    response dimension, sum(_get_sigma_sq(...)) / (nn_count * 1), is the
    value the test helper get_analytic_sigma_sq gives for the system
    K_0 + eps * I and the targets of that neighbourhood; both raise
    LinAlgError when the system is singular. *)
Theorem analytic_sigma_sq_single_neighbourhood (F : fieldType) (k n : nat)
    (self : MuyGPS F) (K : 'I_1 -> 'M[F]_k) (target_col : 'cV[F]_n)
    (nn_indices : 'I_1 -> 'I_k -> 'I_n) :
  (0 < k)%N ->
  (s <- _get_sigma_sq self K target_col nn_indices ;; sigma_sq_mean 1 k s) =
  (M <- get_analytic_sigma_sq (K ord0 + hp_val (eps self) *: eye F k)
          (\col_l target_col (nn_indices ord0 l) 0) ;;
   Ok (M 0 0)).
Proof.
move=> k_gt0.
rewrite _get_sigma_sqE /get_analytic_sigma_sq (gtn_eqF k_gt0) /linalg_solve.
rewrite forall_ord1; case: ifP => //= _; congr Ok.
rewrite pysumE big_map big_enum /= big_ord_recl big_ord0 addr0 muln1.
by rewrite mulrC -scalemxAl [RHS]mxE.
Qed.

Lemma analytic_sigma_sq_single_neighbourhood_witness :
  (0 < 3)%N
  /\ (s <- _get_sigma_sq scenario_engine scenario_K scenario_train_targets
             scenario_nn_indices ;;
      sigma_sq_mean 1 3 s) =
     (M <- get_analytic_sigma_sq
             (scenario_K ord0 + hp_val (eps scenario_engine) *: eye rat 3)
             (\col_l scenario_train_targets (scenario_nn_indices ord0 l) 0) ;;
      Ok (M 0 0)).
Proof.
split; first by [].
exact: (@analytic_sigma_sq_single_neighbourhood _ 3 3 scenario_engine
          scenario_K scenario_train_targets scenario_nn_indices isT).
Defined.

Section SigmaSqScaling.

Variable F : fieldType.
Variables b k n r : nat.
Variable K : 'I_b -> 'M[F]_k.
Variable nn_indices : 'I_b -> 'I_k -> 'I_n.
Variable targets : 'M[F]_(n, r).

Local Notation h0 := (mkHyperparameter (0 : F) Fixed).

Lemma sigma_sq_estimate_scale (self : MuyGPS F) (c : F) (i : 'I_r) :
  sigma_sq_estimate self K nn_indices (c *: targets) i =
  c ^+ 2 * sigma_sq_estimate self K nn_indices targets i.
Proof.
rewrite /sigma_sq_estimate mulrA mulr_sumr; congr (_ / _).
apply: eq_bigr => j _ /=.
have -> : \col_l (c *: targets) (nn_indices j l) i =
          c *: \col_l targets (nn_indices j l) i :> 'cV[F]_k.
  by apply/colP => l; rewrite !mxE.
by rewrite linearZ /= -scalemxAr -scalemxAr -scalemxAl !mxE expr2 mulrA.
Qed.

(** X14: the scale estimate is quadratic in the targets: multiplying the
    targets by c multiplies by c^2 every value sigma_sq_optim stores
    (non-singular systems, non-empty batch, a scale parameter for every
    response dimension). *)
Theorem sigma_sq_optim_quadratic (self : MuyGPS F) (c : F) :
  [forall j, K j + hp_val (eps self) *: eye F k \in unitmx] ->
  (0 < b)%N -> (r <= size (sigma_sq self))%N ->
  exists self1 self2 : MuyGPS F,
    [/\ sigma_sq_optim self K nn_indices targets = (self1, Ok tt),
        sigma_sq_optim self K nn_indices (c *: targets) = (self2, Ok tt)
      & forall i : 'I_r,
          hp_val (nth h0 (sigma_sq self2) i) =
          c ^+ 2 * hp_val (nth h0 (sigma_sq self1) i)].
Proof.
move=> Aunit b_gt0 le_r.
have lt_dims : all (fun i : 'I_r => i < size (sigma_sq self))%N (enum 'I_r).
  by apply/allP => i _; apply: leq_trans le_r.
do 2![eexists]; split; [exact: sigma_sq_optim_loopE
                       | exact: sigma_sq_optim_loopE |].
move=> i /=; rewrite !nth_foldl_update ?enum_uniq // mem_enum /=.
exact: sigma_sq_estimate_scale.
Qed.

End SigmaSqScaling.

Lemma sigma_sq_optim_quadratic_witness :
  [/\ [forall j, scenario_K j + hp_val (eps (engine_with_noise 0))
                   *: eye rat 3 \in unitmx],
      (0 < 1)%N, (1 <= size (sigma_sq (engine_with_noise 0)))%N
    & exists self2 : MuyGPS rat,
        sigma_sq_optim (engine_with_noise 0) scenario_K scenario_nn_indices
          (2%:R *: scenario_train_targets) = (self2, Ok tt)].
Proof.
have Aunit : [forall j, scenario_K j
    + hp_val (eps (engine_with_noise 0)) *: eye rat 3 \in unitmx].
  by apply/forallP => j; apply: scenario_system_unit.
split; [exact: Aunit | by [] | by [] |].
have [self1 [self2 [_ optimE _]]] :=
  @sigma_sq_optim_quadratic _ 1 3 3 1 scenario_K scenario_nn_indices
    scenario_train_targets (engine_with_noise 0) 2%:R Aunit isT isT.
by exists self2.
Defined.

(* ====================================================================== *)
(* The benchmark engine and the test helpers                              *)
(* ====================================================================== *)

Section BenchmarkFixed.

Variable F : fieldType.

Lemma bgp_fixed_loopE (hs : seq (string * Hyperparameter F)) (after : bool) :
  bgp_fixed_loop hs after = all (fun p => fixed p.2) hs && after.
Proof.
by elim: hs => [|p hs IHhs] //=; case: (fixed p.2).
Qed.

Lemma dict_set_not_nil (V : Type) (d : seq (string * V)) (key : string)
    (v : V) :
  nilp (dict_set d key v) = false.
Proof.
rewrite /dict_set; case: ifP => [|_]; first by case: d.
by rewrite /nilp size_rcons.
Qed.

(** X8: BenchmarkGP.fixed() answers True exactly when
    BenchmarkGP.get_optim_params() is the empty dictionary: there is
    something to optimise if and only if the engine is not fixed. *)
Theorem bgp_fixed_no_optim_params (self : BenchmarkGP F) :
  bgp_fixed self = nilp (bgp_get_optim_params self).
Proof.
rewrite /bgp_fixed /bgp_get_optim_params bgp_fixed_loopE.
case: (fixed (bgp_eps self)) => /=; last by rewrite andbF dict_set_not_nil.
rewrite andbT /nilp size_filter -leqn0 leqNgt -has_count -all_predC.
by apply: eq_all => p /=; rewrite negbK.
Qed.

End BenchmarkFixed.

Section BenchmarkRegress.

Variable F : fieldType.
Variable skl_pairwise_distances :
  forall m n f : nat, 'M[F]_(m, f) -> 'M[F]_(n, f) -> string -> 'M[F]_(m, n).
Variables tc n f r : nat.

(** X9: under a supported metric, when BenchmarkGP.regress returns, its
    responses are those MuyGPS._compute_solve gives with the same kernel,
    zero noise and the whole training set as the neighbourhood of every
    test point, and the diagonal of its variance is the diagonal variance
    of MuyGPS._compute_diagonal_variance with the kernel value of each
    test point against itself in place of 1. *)
Theorem bgp_regress_agrees_with_muygps (self : BenchmarkGP F)
    (engine : MuyGPS F) (test : 'M[F]_(tc, f)) (train : 'M[F]_(n, f))
    (targets : 'M[F]_(n, r)) (skl_metric : string)
    (responses : 'M[F]_(tc, r)) (variance : 'M[F]_tc) :
  benchmark_select_skl_metric (kernel_metric (bgp_kernel self))
    = Ok skl_metric ->
  kernel engine = bgp_kernel self -> hp_val (eps engine) = 0 ->
  bgp_regress skl_pairwise_distances self test train targets
    = Ok (responses, variance) ->
  let K := kernel_call_stack (kernel engine)
             (fun _ : 'I_tc => skl_pairwise_distances train train skl_metric)
  in
  let Kcross := kernel_call (kernel engine)
                  (skl_pairwise_distances test train skl_metric) in
  _compute_solve engine K Kcross (fun _ => targets) = Ok responses
  /\ exists2 dv : 'cV[F]_tc,
       _compute_diagonal_variance engine K Kcross = Ok dv
       & forall i,
           variance i i =
           kernel_fn (kernel engine)
             (skl_pairwise_distances test test skl_metric i i) - 1 + dv i 0.
Proof.
move=> metricE -> eps0.
rewrite /bgp_regress /benchmark_crosswise_distances
  /benchmark_pairwise_distances metricE /= /linalg_solve.
set K0 := kernel_call _ (skl_pairwise_distances train train _).
set Kc := kernel_call _ (skl_pairwise_distances test train _).
case K0unit: (K0 \in unitmx) => //= -[<- <-].
have Aunit : [forall i : 'I_tc,
    kernel_call_stack (bgp_kernel self)
      (fun _ => skl_pairwise_distances train train skl_metric) i
    + hp_val (eps engine) *: eye F n \in unitmx].
  by apply/forallP => i; rewrite eps0 scale0r addr0.
rewrite _compute_solveE _compute_diagonal_varianceE Aunit eps0.
split.
  congr Ok; apply/matrixP => i j.
  by rewrite mxE scale0r addr0 -row_mul mxE.
eexists; first by [].
move=> i; rewrite [LHS]mxE [X in X + _]mxE [X in _ + X]mxE.
rewrite [X in _ = _ + X]mxE scale0r addr0 addrA subrK; congr (_ - _).
by rewrite tr_row -!col_mulmx -row_mul [RHS]mxE [RHS]mxE.
Qed.

End BenchmarkRegress.

Lemma scenario_bgp_kernel_matrix :
  kernel_call (bgp_kernel scenario_bgp)
    (squared_distances scenario_train scenario_train "sqeuclidean") = 1%:M.
Proof.
apply/matrixP => i j; rewrite !ord1 [LHS]mxE [RHS]mxE eqxx.
rewrite /squared_distances /scenario_train /= mxE big_ord_recl big_ord0.
by rewrite !mxE subrr subr0.
Qed.

Lemma scenario_bgp_regress_returns :
  exists rv,
    bgp_regress squared_distances scenario_bgp scenario_test scenario_train
      scenario_bgp_targets = Ok rv.
Proof.
rewrite /bgp_regress /benchmark_crosswise_distances
  /benchmark_pairwise_distances /= /linalg_solve.
by rewrite scenario_bgp_kernel_matrix unitmx1 /=; eexists.
Qed.

Lemma bgp_regress_agrees_with_muygps_witness :
  [/\ benchmark_select_skl_metric (kernel_metric (bgp_kernel scenario_bgp))
        = Ok "sqeuclidean"%string,
      kernel scenario_bgp_engine = bgp_kernel scenario_bgp,
      hp_val (eps scenario_bgp_engine) = 0,
      exists rv,
        bgp_regress squared_distances scenario_bgp scenario_test
          scenario_train scenario_bgp_targets = Ok rv
    & exists responses : 'M[rat]_(1, 1),
        _compute_solve scenario_bgp_engine
          (kernel_call_stack (kernel scenario_bgp_engine)
             (fun _ : 'I_1 =>
                squared_distances scenario_train scenario_train
                  "sqeuclidean"))
          (kernel_call (kernel scenario_bgp_engine)
             (squared_distances scenario_test scenario_train "sqeuclidean"))
          (fun _ => scenario_bgp_targets) = Ok responses].
Proof.
have [[responses variance] returns] := scenario_bgp_regress_returns.
split; [by [] | by [] | by [] | by exists (responses, variance) |].
exists responses.
by have [] := @bgp_regress_agrees_with_muygps _ squared_distances 1 1 1 1
  scenario_bgp scenario_bgp_engine scenario_test scenario_train
  scenario_bgp_targets "sqeuclidean"%string responses variance
  (erefl _) (erefl _) (erefl _) returns.
Defined.



(* ====================================================================== *)
(* The posterior mean and variance as functions of their inputs           *)
(* ====================================================================== *)

Section SolveAlgebra.

Variable F : fieldType.
Variables b k : nat.

(** X11: the responses are linear in the targets: for a scalar a and two
    target tensors, _compute_solve on a * T1 + T2 returns a times the
    responses of T1 plus the responses of T2, and fails when those
    fail. *)
Theorem compute_solve_linear (r : nat) (self : MuyGPS F)
    (K : 'I_b -> 'M[F]_k) (Kcross : 'M[F]_(b, k))
    (T1 T2 : 'I_b -> 'M[F]_(k, r)) (a : F) :
  _compute_solve self K Kcross (fun i => a *: T1 i + T2 i) =
  (R1 <- _compute_solve self K Kcross T1 ;;
   R2 <- _compute_solve self K Kcross T2 ;;
   Ok (a *: R1 + R2)).
Proof.
rewrite !_compute_solveE; case: ifP => //= _; congr Ok.
apply/matrixP => i j; rewrite [LHS]mxE [RHS]mxE [X in _ = X + _]mxE.
rewrite [X in _ = _ * X + _]mxE [X in _ = _ + X]mxE.
by rewrite mulmxDr -scalemxAr mulmxDr -scalemxAr mxE [X in X + _]mxE.
Qed.

(** X12: the batch elements are solved one by one: when _compute_solve
    returns for a batch, it returns for any selection or reordering s of
    its elements, and row i of the selection's responses is row s(i) of
    the batch's. *)
Theorem compute_solve_subbatch (b' r : nat) (self : MuyGPS F)
    (K : 'I_b -> 'M[F]_k) (Kcross : 'M[F]_(b, k))
    (T : 'I_b -> 'M[F]_(k, r)) (s : 'I_b' -> 'I_b)
    (responses : 'M[F]_(b, r)) :
  _compute_solve self K Kcross T = Ok responses ->
  _compute_solve self (K \o s) (rowsub s Kcross) (T \o s)
  = Ok (rowsub s responses).
Proof.
rewrite !_compute_solveE; case: ifP => // /forallP Aunit [<-].
case: forallP => [_|[] i]; last exact: Aunit.
congr Ok; apply/matrixP => i j; rewrite [LHS]mxE [RHS]mxE [RHS]mxE /=.
by congr ((_ *m _) 0 j); apply/rowP => l; rewrite !mxE.
Qed.

End SolveAlgebra.

Lemma compute_solve_subbatch_witness :
  exists responses : 'M[rat]_(1, 1),
    _compute_solve (engine_with_noise 0) scenario_K scenario_Kcross
      scenario_targets = Ok responses
    /\ _compute_solve (engine_with_noise 0)
         (scenario_K \o (fun _ : 'I_2 => ord0))
         (rowsub (fun _ : 'I_2 => ord0) scenario_Kcross)
         (scenario_targets \o (fun _ : 'I_2 => ord0))
       = Ok (rowsub (fun _ : 'I_2 => ord0) responses).
Proof.
have returns := scenario_solve (lexx (0 : rat)).
eexists; split; first exact: returns.
exact: (compute_solve_subbatch (fun _ : 'I_2 => ord0) returns).
Defined.

Section Interpolation.

Variable F : fieldType.
Variables b k : nat.


End Interpolation.


(* ====================================================================== *)
(* MuyGPyS/data/utils.py: normalize                                       *)
(* ====================================================================== *)

Module DataUtils.

Local Open Scope R_scope.

(* np.sum(X ** 2, axis=1), for one row *)
Definition sum_sq (row : seq R) : R := foldr Rplus 0 [seq x ^ 2 | x <- row].

(* normalize(X):
     return X * np.sqrt(X.shape[1] / np.sum(X ** 2, axis=1))[:, None]
   on a matrix with n_cols columns, given by its rows. *)
Definition normalize (n_cols : nat) (X : seq (n_cols.-tuple R))
  : seq (seq R) :=
  map (fun row : n_cols.-tuple R =>
         [seq x * sqrt (INR n_cols / sum_sq row) | x <- tval row]) X.

Lemma sum_sq_cons (x : R) (row : seq R) :
  sum_sq (x :: row) = x ^ 2 + sum_sq row.
Proof. by []. Qed.

Lemma sum_sq_scale (c : R) (row : seq R) :
  sum_sq [seq x * c | x <- row] = c ^ 2 * sum_sq row.
Proof.
elim: row => [|x row IHrow]; first by rewrite /sum_sq /=; Lra.lra.
by rewrite map_cons !sum_sq_cons IHrow; Lra.nra.
Qed.

(** X15: normalize scales every non-zero row to squared l2-norm n_cols
    (so to l2-norm sqrt(n_cols), which is 1 only for a single column):
    the squares of the entries of row i of normalize(X) sum to the
    number of columns of X. *)
Theorem normalize_row_norm (n_cols : nat) (X : seq (n_cols.-tuple R))
    (i : nat) :
  (i < size X)%N ->
  0 < sum_sq (nth [tuple of nseq n_cols 0] X i) ->
  sum_sq (nth [::] (normalize X) i) = INR n_cols.
Proof.
move=> lt_i row_pos.
rewrite /normalize (nth_map [tuple of nseq n_cols 0]) // sum_sq_scale.
set s := sum_sq _ in row_pos *.
have n_ge0 : 0 <= INR n_cols by apply: pos_INR.
have ratio_ge0 : 0 <= INR n_cols / s.
  by apply: Rmult_le_pos => //; apply: Rlt_le; apply: Rinv_0_lt_compat.
by rewrite (pow2_sqrt _ ratio_ge0) /Rdiv Rmult_assoc Rinv_l; Lra.lra.
Qed.

Lemma normalize_row_norm_witness :
  [/\ (0 < size [:: [tuple 3; 4]])%N,
      0 < sum_sq (nth [tuple of nseq 2 0] [:: [tuple 3; 4]] 0)
    & sum_sq (nth [::] (normalize [:: [tuple 3; 4]]) 0) = INR 2].
Proof.
have row_pos : 0 < sum_sq (nth [tuple of nseq 2 0] [:: [tuple 3; 4]] 0).
  by rewrite /sum_sq /=; Lra.lra.
split; [by [] | exact: row_pos |].
exact: (@normalize_row_norm 2 [:: [tuple 3; 4]] 0 isT row_pos).
Defined.

End DataUtils.
